(** * Mohawk REST server: a shallow embedding of the request pipeline

    The development follows the Go sources of the server:
    - [middleware.BadRequest] and [handler.Logger] (the handler structs),
    - [api.GetStatus] and [api.Serve] (server/server.go),
    - [GetStatus] of the [main] program of release 0.10, which has the
      same body with another version constant.

    Packages that the server imports but whose code is not part of the
    sources at hand (router, the decorator constructors of middleware,
    storage, alerts) are modelled from the design document; each such
    definition says so in its doc comment. *)

From Stdlib Require Import ZArith QArith String Ascii List Bool Lia.
From stdpp Require Import base option list gmap strings fin_maps pretty.

Import ListNotations.
Local Open Scope Z_scope.
Local Open Scope string_scope.

(** ** Text helpers *)

(** Go's "\n" and the double quote, which have no escape in Rocq strings. *)
Definition nl : string := String (ascii_of_nat 10) EmptyString.
Definition dq : string := String (ascii_of_nat 34) EmptyString.

(** [quoted s] is [s] between double quotes, as in a Go literal "\"s\"". *)
Definition quoted (s : string) : string := dq +:+ s +:+ dq.

(** [strings.Repeat(" ", n)]. *)
Fixpoint spaces (n : nat) : string :=
  match n with
  | O => EmptyString
  | S k => String " "%char (spaces k)
  end.

Definition inRangeN (lo hi b : N) : bool := ((lo <=? b) && (b <=? hi))%N.

(** The table [first] of package utf8: for a byte that can start an
    encoding of several bytes, the number of continuation bytes and the
    range accepted for the first of them. *)
Definition leadByte (b : N) : option (nat * N * N) :=
  if inRangeN 194 223 b then Some (1%nat, 128%N, 191%N)
  else if (b =? 224)%N then Some (2%nat, 160%N, 191%N)
  else if inRangeN 225 236 b then Some (2%nat, 128%N, 191%N)
  else if (b =? 237)%N then Some (2%nat, 128%N, 159%N)
  else if inRangeN 238 239 b then Some (2%nat, 128%N, 191%N)
  else if (b =? 240)%N then Some (3%nat, 144%N, 191%N)
  else if inRangeN 241 243 b then Some (3%nat, 128%N, 191%N)
  else if (b =? 244)%N then Some (3%nat, 128%N, 143%N)
  else None.

(** [continues k lo hi t]: [t] starts with [k] continuation bytes, the
    first within [lo, hi], the others within 0x80..0xBF. *)
Fixpoint continues (k : nat) (lo hi : N) (t : string) : bool :=
  match k with
  | O => true
  | S k' =>
      match t with
      | EmptyString => false
      | String c t' => inRangeN lo hi (N_of_ascii c) && continues k' 128 191 t'
      end
  end.

(** The loop of [utf8.RuneCountInString]; [skip] bytes belong to the
    rune counted last. A byte that starts no valid encoding counts as
    one rune. *)
Fixpoint runeCountFrom (skip : nat) (s : string) : nat :=
  match s with
  | EmptyString => O
  | String c t =>
      match skip with
      | S k => runeCountFrom k t
      | O =>
          match leadByte (N_of_ascii c) with
          | Some (k, lo, hi) =>
              if continues k lo hi t then S (runeCountFrom k t)
              else S (runeCountFrom O t)
          | None => S (runeCountFrom O t)
          end
      end
  end.

Definition RuneCountInString (s : string) : nat := runeCountFrom 0 s.

(** The verb [%4s] of package fmt: right-justify in a field of width 4,
    the width counted in runes. *)
Definition pad4 (s : string) : string :=
  spaces (4 - RuneCountInString s) +:+ s.

(** The status document both versions of [GetStatus] print:
    [fmt.Sprintf(resTemplate, api, ver, backend)] with
    resTemplate = {"MetricsService":"STARTED","Implementation-Version":"%s",
    "MohawkVersion":"%s","MohawkBackend":"%s"} (on one line). *)
Definition resTemplate (api ver backend : string) : string :=
  "{" +:+ quoted "MetricsService" +:+ ":" +:+ quoted "STARTED" +:+ ","
      +:+ quoted "Implementation-Version" +:+ ":" +:+ quoted api +:+ ","
      +:+ quoted "MohawkVersion" +:+ ":" +:+ quoted ver +:+ ","
      +:+ quoted "MohawkBackend" +:+ ":" +:+ quoted backend +:+ "}".

(** ** net/http: requests and response writers *)

Module Http.

(** The fields of [*http.Request] that the server reads. [URLPath] is
    the escaped path of [r.URL]; [URL] is [r.URL] as the verb [%s]
    prints it ([URL.String()]: the escaped path and, after a question
    mark, the query when there is one). *)
Record Request : Type := mkRequest {
  Method : string;
  URLPath : string;
  URL : string;
  RemoteAddr : string;
  ReqHeader : gmap string string
}.

(** [r.Header.Get(k)]: the value, or the empty string when absent. *)
Definition HeaderGet (r : Request) (k : string) : string :=
  default EmptyString (ReqHeader r !! k).

(** An [http.ResponseWriter]. [header] is the map returned by
    [w.Header()]; [snapshot] is the copy of it that is taken when the
    status line is written: later changes of [header] do not reach the
    client. The snapshot is the handler's part of the header block; the
    writer of net/http completes it on the wire with lines of its own,
    see [onWire]. *)
Record ResponseWriter : Type := mkResponseWriter {
  wroteHeader : bool;
  status : Z;
  header : gmap string string;
  snapshot : gmap string string;
  body : string
}.

(** A writer on which nothing has been written. *)
Definition newWriter : ResponseWriter :=
  mkResponseWriter false 0 ∅ ∅ EmptyString.

(** [w.WriteHeader(code)]: the first call fixes the status and the
    headers; a later call is superfluous and changes nothing. *)
Definition WriteHeader (code : Z) (w : ResponseWriter) : ResponseWriter :=
  if wroteHeader w then w
  else mkResponseWriter true code (header w) (header w) (body w).

(** [w.Header().Set(k, v)]. *)
Definition HeaderSet (k v : string) (w : ResponseWriter) : ResponseWriter :=
  mkResponseWriter (wroteHeader w) (status w) (<[k := v]> (header w))
                   (snapshot w) (body w).

(** [w.Write(data)]: an implicit [WriteHeader(200)] when no status was
    written, then the data is appended to the body. *)
Definition Write (data : string) (w : ResponseWriter) : ResponseWriter :=
  let w' := WriteHeader 200 w in
  mkResponseWriter (wroteHeader w') (status w') (header w') (snapshot w')
                   (body w' +:+ data).

(** The header names whose lines the writer of net/http decides itself
    when the response goes out: it adds Date and Content-Length and,
    where the handler set none, a Content-Type sniffed from the body,
    and it manages Connection and Transfer-Encoding. *)
Definition serverHeaders : list string :=
  ["Content-Type"; "Content-Length"; "Date"; "Connection"; "Transfer-Encoding"].

(** [onWire w wire]: [wire] is a header block that the server can put
    on the wire for the writer [w]. Apart from the names of
    [serverHeaders] it carries no name that [snapshot w] does not
    have. *)
Definition onWire (w : ResponseWriter) (wire : gmap string string) : Prop :=
  forall k : string,
    ~ In k serverHeaders -> snapshot w !! k = None -> wire !! k = None.

(** What a handler can touch: the response writer, the process log
    (one entry per [log.Printf], without the time prefix) and, read
    only, the files below the media root. *)
Record World : Type := mkWorld {
  resp : ResponseWriter;
  logs : list string;
  files : gmap string string
}.

Definition onResp (f : ResponseWriter -> ResponseWriter) (s : World) : World :=
  mkWorld (f (resp s)) (logs s) (files s).

(** [log.Printf(msg)]. *)
Definition logPrintf (msg : string) (s : World) : World :=
  mkWorld (resp s) (logs s ++ [msg]) (files s).

(** [fmt.Fprintf(w, data)] with a constant format, [fmt.Fprintln]. *)
Definition Fprintf (data : string) : World -> World := onResp (Write data).
Definition Fprintln (data : string) : World -> World :=
  onResp (Write (data +:+ nl)).

(** [http.Handler]: [ServeHTTP(w, r)] as a state transformer. *)
Definition Handler : Type := Request -> World -> World.

(** A world whose response is still untouched. *)
Definition fresh (s : World) : Prop :=
  wroteHeader (resp s) = false /\ body (resp s) = EmptyString.

(** The access line both loggers print:
    "%s Accept-Encoding: %s, %4s %s". *)
Definition accessLine (r : Request) : string :=
  RemoteAddr r +:+ " Accept-Encoding: " +:+ HeaderGet r "Accept-Encoding"
    +:+ ", " +:+ pad4 (Method r) +:+ " " +:+ URL r.

End Http.

Import Http.

(** ** package handler: the logging handler *)

Module HandlerPkg.

(** [type Logger struct { next http.Handler }]; a nil [next] is [None]. *)
Record Logger : Type := mkLogger { next : option Handler }.

(** [func (l *Logger) SetNext(h http.Handler)]. *)
Definition SetNext (l : Logger) (h : Handler) : Logger := mkLogger (Some h).

(** [func (l Logger) ServeHTTP]: logs the access line and forwards;
    [None] is the nil dereference when no successor was set. *)
Definition ServeHTTP (l : Logger) (r : Request) (s : World) : option World :=
  let s1 := logPrintf (accessLine r) s in
  match next l with
  | Some h => Some (h r s1)
  | None => None
  end.

End HandlerPkg.

(** ** package middleware: the bad-request handler *)

Module Middleware.

(** [type BadRequest struct { Verbose bool }]. *)
Record BadRequest : Type := mkBadRequest { Verbose : bool }.

(** [func (b *BadRequest) SetNext(_h http.Handler) {}]. *)
Definition SetNext (b : BadRequest) (_h : Handler) : BadRequest := b.

(** The body announced to an OPTIONS request. *)
Definition capabilityBody : string :=
  "{" +:+ quoted "GET" +:+ ":{}," +:+ quoted "PUT" +:+ ":{},"
      +:+ quoted "POST" +:+ ":{}}".

Definition notFoundBody : string := "Page not found - 404" +:+ nl.

(** [func (b BadRequest) ServeHTTP(w, r)]. *)
Definition ServeHTTP (b : BadRequest) : Handler := fun r s =>
  if String.eqb (Method r) "OPTIONS" then
    let s := onResp (WriteHeader 200) s in
    let s := onResp (HeaderSet "Content-Type" "application/json") s in
    let s := onResp (HeaderSet "Access-Control-Allow-Origin" "*") s in
    let s := onResp (HeaderSet "Access-Control-Allow-Headers"
                       "authorization,content-type,hawkular-tenant") s in
    let s := onResp (HeaderSet "Access-Control-Allow-Methods"
                       "GET, POST, DELETE, PUT") s in
    Fprintf capabilityBody s
  else
    let s := logPrintf ("Page not found - 404:" +:+ nl) s in
    let s := logPrintf (accessLine r) s in
    let s := onResp (WriteHeader 404) s in
    Fprintf notFoundBody s.

(** *** Decorators

    The decorator constructors that [Serve] calls live in files of
    package middleware that are not among the sources; they are
    modelled from section 4.2 of the design document. *)

(** [type Decorator func(http.HandlerFunc) http.HandlerFunc]. *)
Definition Decorator : Type := Handler -> Handler.

(** Modelled from the spec: [middleware.Append] is missing. "Decorators
    are applied outer-to-inner in the order supplied; the first
    decorator in the list is the outermost." *)
Definition Append (core : Handler) (decorators : list Decorator) : Handler :=
  foldr (fun d h => d h) core decorators.

(** Modelled from the spec: [middleware.LoggingDecorator] is missing.
    "Records method, path, client address, and relevant headers before
    forwarding; never short-circuits." The line is the one
    [handler.Logger] prints. *)
Definition LoggingDecorator : Decorator := fun next r s =>
  next r (logPrintf (accessLine r) s).

(** Modelled from the spec: [middleware.DefaultHeadersDecorator] is
    missing. "Injects standard response headers (content type, CORS)
    before forwarding; does not alter status." The header list itself
    is a constant of the missing file and is taken as a parameter. *)
Definition DefaultHeadersDecorator (hs : list (string * string)) : Decorator :=
  fun next r s =>
    next r (onResp (fun w => foldl (fun w kv => HeaderSet kv.1 kv.2 w) w hs) s).

(** Modelled from the spec: [middleware.BadRequestHandler] is missing;
    it is the function form of [BadRequest.ServeHTTP] above: "terminal
    handler; returns a fixed JSON capability-advertisement body with
    200 for OPTIONS requests, and a 404 body for every other unmatched
    request. Logs the miss." *)
Definition BadRequestHandler : Handler := ServeHTTP (mkBadRequest false).

(** Modelled from the spec: [middleware.FileServeDecorator] is missing.
    "Serves a file from a configured media root if a request is a GET
    below the router chain's coverage and a matching file exists;
    otherwise forwards to the next (bad-request) handler." *)
Definition FileServeDecorator (media : string) : Decorator := fun next r s =>
  if String.eqb (Method r) "GET" then
    match files s !! (media +:+ URLPath r) with
    | Some content => Fprintf content (onResp (WriteHeader 200) s)
    | None => next r s
    end
  else next r s.

(** The fragment of Go's regexp syntax that the server uses: a literal
    text, optionally anchored by a leading [^] and a trailing [$]. *)
Record Regexp : Type := mkRegexp {
  anchorStart : bool;
  anchorEnd : bool;
  literal : string
}.

Definition isMeta (c : ascii) : bool :=
  existsb (Ascii.eqb c)
    (list_ascii_of_string ("\.+*?()|[]{}^$")).

Fixpoint anyMeta (s : string) : bool :=
  match s with
  | EmptyString => false
  | String c t => isMeta c || anyMeta t
  end.

(** Splits a trailing [$] off a pattern. *)
Fixpoint dropDollar (s : string) : string * bool :=
  match s with
  | EmptyString => (EmptyString, false)
  | String c t =>
      match t with
      | EmptyString =>
          if Ascii.eqb c "$"%char then (EmptyString, true)
          else (String c EmptyString, false)
      | _ => let (t', e) := dropDollar t in (String c t', e)
      end
  end.

(** [regexp.Compile] on that fragment; [None] for a pattern outside
    of it. *)
Definition Compile (p : string) : option Regexp :=
  let (a, rest) :=
    match p with
    | String c t => if Ascii.eqb c "^"%char then (true, t) else (false, p)
    | EmptyString => (false, p)
    end in
  let (lit, e) := dropDollar rest in
  if anyMeta lit then None else Some (mkRegexp a e lit).

Definition hasSuffix (suf s : string) : bool :=
  (String.length suf <=? String.length s)%nat &&
  String.eqb (substring (String.length s - String.length suf)
                        (String.length suf) s) suf.

Fixpoint contains (sub s : string) : bool :=
  String.prefix sub s ||
  match s with
  | EmptyString => false
  | String _ t => contains sub t
  end.

(** [re.MatchString(s)]. *)
Definition MatchString (re : Regexp) (s : string) : bool :=
  match anchorStart re, anchorEnd re with
  | true, true => String.eqb s (literal re)
  | true, false => String.prefix (literal re) s
  | false, true => hasSuffix (literal re) s
  | false, false => contains (literal re) s
  end.

(** Modelled from the spec: the token test of the missing
    [middleware.AuthDecorator]. The configured value is a "bearer token
    for auth"; a request presents it as the bearer credential of its
    Authorization header. *)
Definition validToken (token : string) (r : Request) : bool :=
  match ReqHeader r !! "Authorization" with
  | Some v => String.eqb v ("Bearer " +:+ token)
  | None => false
  end.

(** Modelled from the spec: the body of the "unauthorized response" of
    the missing [middleware.AuthDecorator]; the design document fixes
    the status (401) only. *)
Definition unauthorizedBody : string := "Unauthorized - 401" +:+ nl.

(** Modelled from the spec: [middleware.AuthDecorator] is missing.
    "Short-circuits with an unauthorized response unless a configured
    token is present, except for paths matching a configured exemption
    pattern; the exemption is a regular-expression match against the
    request path"; unauthorized is status 401. [None] is the panic of
    [regexp.MustCompile]. *)
Definition AuthDecorator (token pattern : string) : option Decorator :=
  match Compile pattern with
  | None => None
  | Some re =>
      Some (fun next r s =>
              if MatchString re (URLPath r) || validToken token r
              then next r s
              else Fprintf unauthorizedBody (onResp (WriteHeader 401) s))
  end.

End Middleware.

(** ** package router *)

Module Router.

(** A route handler receives the captured parameters as [argv]. *)
Definition RouteHandler : Type := Request -> gmap string string -> World -> World.

(** [strings.Split(s, "/")] . *)
Fixpoint split (s : string) : list string :=
  match s with
  | EmptyString => [EmptyString]
  | String c t =>
      if Ascii.eqb c "/"%char then EmptyString :: split t
      else match split t with
           | x :: xs => String c x :: xs
           | [] => [String c EmptyString]
           end
  end.

(** A single path segment: a text without a slash. *)
Fixpoint isSegment (s : string) : bool :=
  match s with
  | EmptyString => true
  | String c t => negb (Ascii.eqb c "/"%char) && isSegment t
  end.

(** [strings.TrimPrefix] that also reports whether the prefix was there. *)
Fixpoint cutPrefix (prefix s : string) : option string :=
  match prefix, s with
  | EmptyString, _ => Some s
  | String a p, String b t => if Ascii.eqb a b then cutPrefix p t else None
  | String _ _, EmptyString => None
  end.

(** Modelled from the spec: the route type of the missing package
    router. "Route: (method, path pattern, handler)." *)
Record route : Type := mkRoute {
  method : string;
  pattern : string;
  handler : RouteHandler
}.

(** Modelled from the spec: [type Router] is missing; [Serve] sets its
    field [Prefix], the routes are "registered at startup". *)
Record Router : Type := mkRouter {
  Prefix : string;
  Routes : list route
}.

Definition sameKey (m p : string) (rt : route) : bool :=
  String.eqb (method rt) m && String.eqb (pattern rt) p.

(** Modelled from the spec: [Router.Add] is missing. "Registers a
    route. Fails (at registration time, i.e., a programming error) if
    the same (method, pattern) is registered twice." [None] is that
    failure; routes are kept in registration order. *)
Definition Add (m p : string) (h : RouteHandler) (rt : Router) : option Router :=
  if existsb (sameKey m p) (Routes rt) then None
  else Some (mkRouter (Prefix rt) (Routes rt ++ [mkRoute m p h])).

Section Matching.

(** [net/url]'s unescaping of a path segment. *)
Variable unescape : string -> string.

(** Modelled from the spec: the comparison inside the missing
    [Router.Match]. "Pattern segments are literal or of the form :name
    (single path segment wildcard)"; the captured value is unescaped.
    The multi-segment form that the design document mentions is used by
    no pattern of [Serve] and is not modelled. *)
Fixpoint matchSegments (pat path : list string) (argv : gmap string string)
  : option (gmap string string) :=
  match pat, path with
  | [], [] => Some argv
  | p :: pat', x :: path' =>
      match p with
      | String ":" name => matchSegments pat' path' (<[name := unescape x]> argv)
      | _ => if String.eqb p x then matchSegments pat' path' argv else None
      end
  | _, _ => None
  end.

(** Modelled from the spec: the search inside the missing
    [Router.Match]. "Compared against each registered pattern for that
    method; the first structurally compatible pattern wins (registration
    order is the tie-break, earlier wins)." *)
Fixpoint firstMatch (m : string) (segs : list string) (rs : list route)
  : option (RouteHandler * gmap string string) :=
  match rs with
  | [] => None
  | rt :: rs' =>
      if String.eqb (method rt) m then
        match matchSegments (split (pattern rt)) segs ∅ with
        | Some argv => Some (handler rt, argv)
        | None => firstMatch m segs rs'
        end
      else firstMatch m segs rs'
  end.

(** Modelled from the spec: [Router.Match] is missing. "Matching
    strips the Router's fixed prefix; the remaining path is
    tokenized on / and compared segment-by-segment against each
    registered pattern for that method; the first structurally
    compatible pattern wins. A path not matching the prefix, or
    matching the prefix but no pattern, yields found = false." *)
Definition Match (rt : Router) (m path : string)
  : option (RouteHandler * gmap string string) :=
  match cutPrefix (Prefix rt) path with
  | None => None
  | Some rest => firstMatch m (split rest) (Routes rt)
  end.

(** Modelled from the spec: [Router.ServeHTTP] is missing. A router
    that reports a match dispatches its handler; otherwise control
    passes to its successor. *)
Definition ServeHTTP (rt : Router) (next : Handler) : Handler := fun r s =>
  match Match rt (Method r) (URLPath r) with
  | Some (h, argv) => h r argv s
  | None => next r s
  end.

(** Modelled from the spec: [router.Append] is missing. "Multiple
    Router instances are chained: each is tried in order; the first
    to report a match dispatches; if none match, control passes to
    the fallback handler." The chain is built from the innermost
    handler outwards. *)
Definition Append (fallback : Handler) (routers : list Router) : Handler :=
  foldr ServeHTTP fallback routers.

(** The chaining rule in the words of the design document: "each is
    tried in order; the first to report a match dispatches". The
    result is the match of the first router that reports one. *)
Fixpoint tryInOrder (routers : list Router) (m path : string)
  : option (RouteHandler * gmap string string) :=
  match routers with
  | [] => None
  | rt :: rest =>
      match Match rt m path with
      | Some found => Some found
      | None => tryInOrder rest m path
      end
  end.

End Matching.

End Router.

(** ** package storage *)

Module Storage.

Local Open Scope Z_scope.

Section Points.

(** The value of a data point: a float for gauges and counters, a
    state name for availability. *)
Context {V : Type}.

(** A data point: a timestamp in milliseconds and a value. *)
Definition DataPoint : Type := (Z * V)%type.

(** Modelled from the spec: the storage backends are missing. "Data
    points for a given metric are ordered by timestamp; duplicate
    timestamps overwrite the prior value (last-write-wins)." *)
Fixpoint insertPoint (p : DataPoint) (l : list DataPoint) : list DataPoint :=
  match l with
  | [] => [p]
  | q :: l' =>
      if p.1 <? q.1 then p :: q :: l'
      else if p.1 =? q.1 then p :: l'
      else q :: insertPoint p l'
  end.

(** Modelled from the spec: the storage backends are missing. The
    store holds the points of every metric, by tenant and metric id. *)
Definition Store : Type := gmap (string * string) (list DataPoint).

Definition pointsOf (st : Store) (tenant metric : string) : list DataPoint :=
  default [] (st !! (tenant, metric)).

(** Modelled from the spec: the storage backends are missing.
    "Write(tenant, metric, points): appends/overwrites data points
    (last-write-wins per timestamp); creates the metric and tenant
    implicitly if absent." The points of one call are stored in the
    order given. *)
Definition Write (tenant metric : string) (points : list DataPoint)
           (st : Store) : Store :=
  <[(tenant, metric) :=
      foldl (fun l p => insertPoint p l) (pointsOf st tenant metric) points]> st.

Definition inRange (start stop : Z) (p : DataPoint) : bool :=
  (start <=? p.1) && (p.1 <? stop).

(** Modelled from the spec: the storage backends are missing.
    "Query(tenant, metric, timeRange, bucket, kind): for kind = raw,
    returns data points in [start, end) ordered by timestamp." *)
Definition QueryRaw (tenant metric : string) (start stop : Z)
           (st : Store) : list DataPoint :=
  List.filter (inRange start stop) (pointsOf st tenant metric).

(** One call of [Write]. *)
Record WriteCall : Type := mkWriteCall {
  wTenant : string;
  wMetric : string;
  wPoints : list DataPoint
}.

Definition runWrites (calls : list WriteCall) (st : Store) : Store :=
  foldl (fun st c => Write (wTenant c) (wMetric c) (wPoints c) st) st calls.

(** The points that a sequence of calls writes to one metric, in the
    order in which they are written. *)
Definition writtenTo (tenant metric : string) (calls : list WriteCall)
  : list DataPoint :=
  concat (map (fun c =>
                 if String.eqb (wTenant c) tenant && String.eqb (wMetric c) metric
                 then wPoints c else [])
              calls).

(** The value of the last point written at timestamp [t], if any. *)
Definition lastAt (t : Z) (pts : list DataPoint) : option V :=
  foldl (fun acc p => if p.1 =? t then Some p.2 else acc) None pts.

(** Ascending timestamps without repetition. *)
Fixpoint ascending (l : list DataPoint) : Prop :=
  match l with
  | [] => True
  | p :: l' => Forall (fun q => p.1 < q.1) l' /\ ascending l'
  end.

(** The points with timestamp [t]. *)
Definition atTime (t : Z) (p : DataPoint) : bool := p.1 =? t.

(** The invariant of a store: every metric's points are ascending. *)
Definition storeOK (st : Store) : Prop :=
  forall tenant metric, ascending (pointsOf st tenant metric).

End Points.

Arguments DataPoint : clear implicits.
Arguments Store : clear implicits.
Arguments WriteCall : clear implicits.

End Storage.

(** ** package alerts *)

Module Alerts.

(** Modelled from the spec: package alerts is missing. "State is one of
    OK, FIRING." *)
Inductive State : Type := OK | FIRING.

(** Modelled from the spec: package alerts is missing. The comparison
    operators of a rule; the design document names [>]. *)
Inductive Operator : Type := Gt | Ge | Lt | Le.

(** Modelled from the spec: package alerts is missing. "AlertRule: (name,
    target metric selector, threshold, comparison operator, evaluation
    interval, state)." *)
Record Alert : Type := mkAlert {
  name : string;
  metric : string;
  threshold : Q;
  operator : Operator;
  interval : Z;
  state : State
}.

(** Modelled from the spec: package alerts is missing. The fire and
    resolve notifications of a rule. *)
Inductive Notification : Type :=
| Fire (rule : string)
| Resolve (rule : string).

(** [holds op v th]: the comparison [v op th]. *)
Definition holds (op : Operator) (v th : Q) : bool :=
  match op with
  | Gt => negb (Qle_bool v th)
  | Ge => Qle_bool th v
  | Lt => negb (Qle_bool th v)
  | Le => Qle_bool v th
  end.

Definition setState (a : Alert) (st : State) : Alert :=
  mkAlert (name a) (metric a) (threshold a) (operator a) (interval a) st.

(** Modelled from the spec: package alerts is missing. One evaluation
    tick: "if the comparison holds and current state is OK, transition
    to FIRING and emit a fire notification; if it does not hold and
    current state is FIRING, transition to OK and emit a resolve
    notification; otherwise no transition, no notification. A query
    failure is treated as no transition this tick." [obs] is the
    aggregate the stats query returned, [None] when the query failed. *)
Definition tick (a : Alert) (obs : option Q) : Alert * option Notification :=
  match obs with
  | None => (a, None)
  | Some v =>
      match holds (operator a) v (threshold a), state a with
      | true, OK => (setState a FIRING, Some (Fire (name a)))
      | false, FIRING => (setState a OK, Some (Resolve (name a)))
      | _, _ => (a, None)
      end
  end.

(** Successive ticks of one rule; the result lists what each tick
    emitted. *)
Fixpoint run (a : Alert) (obs : list (option Q)) : Alert * list (option Notification) :=
  match obs with
  | [] => (a, [])
  | o :: rest =>
      let (a1, n) := tick a o in
      let (a2, ns) := run a1 rest in
      (a2, n :: ns)
  end.

(** The notifications of a run, in order. *)
Definition emitted (ns : list (option Notification)) : list Notification :=
  omap id ns.

(** [alternating st ns]: read from state [st], fires and resolves take
    turns, a fire first when [st] is [OK] and a resolve first when it
    is [FIRING]. *)
Fixpoint alternating (st : State) (ns : list Notification) : bool :=
  match ns, st with
  | [], _ => true
  | Fire _ :: rest, OK => alternating FIRING rest
  | Resolve _ :: rest, FIRING => alternating OK rest
  | _, _ => false
  end.

(** [type Alerts struct { Backend; Verbose; Alerts }]. *)
Record AlertsRunner (B : Type) : Type := mkAlerts {
  Backend : B;
  Verbose : bool;
  AlertList : list Alert
}.

End Alerts.

(** ** package main of release 0.10: the status handler *)

Module Main010.

Definition VER : string := "0.10.2".
Definition defaultAPI : string := "0.21.0".

(** [func GetStatus(w, r, argv)]; [BackendName] is the package variable. *)
Definition GetStatus (BackendName : string) : Router.RouteHandler :=
  fun r argv s =>
    let res := resTemplate defaultAPI VER BackendName in
    let s := onResp (WriteHeader 200) s in
    Fprintln res s.

End Main010.

(** ** package api: server/server.go *)

Module Api.

Import Router Middleware.

Definition VER : string := "0.22.1".
Definition defaultAPI : string := "0.21.0".

(** [func GetStatus(w, r, argv)]; [BackendName] is the package variable,
    read when the request is served. *)
Definition GetStatus (BackendName : string) : RouteHandler :=
  fun r argv s =>
    let res := resTemplate defaultAPI VER BackendName in
    let s := onResp (WriteHeader 200) s in
    Fprintln res s.

(** The storage engines [Serve] can create. *)
Inductive Backend : Type := Sqlite | Memory | Mongo | Example.

(** [type Handler struct { Verbose bool; Backend storage.Backend }]. *)
Record Handler : Type := mkHandler {
  HVerbose : bool;
  HBackend : Backend
}.

(** What [viper.Get] returns for a key: nil when the key is not set, a
    string, or a value of another type (a list, a map, a number). *)
Inductive Value : Type :=
| VNil
| VString (s : string)
| VOther.

(** The comparison [v != ""] of an interface value with the empty
    string: false for the string that is empty, true for every other
    value, nil included. *)
Definition notEmptyString (v : Value) : bool :=
  match v with
  | VString s => negb (String.eqb s EmptyString)
  | VNil | VOther => true
  end.

(** The configuration [Serve] reads through viper: the keys it gets,
    the name of the config file in use ([viper.ConfigFileUsed()], empty
    when there is none), the value of the key alerts ([viper.Get]) and
    the rule list that [viper.UnmarshalKey] decodes from that key. *)
Record Config : Type := mkConfig {
  storage : string;
  options : string;
  verbose : bool;
  media : string;
  tls : bool;
  gzip : bool;
  token : string;
  port : Z;
  cert : string;
  key : string;
  configFileUsed : string;
  alertsValue : Value;
  alerts : list Alerts.Alert
}.

(** [viper.ConfigFileUsed() != "" && viper.Get("alerts") != ""]. *)
Definition configAlerts (cfg : Config) : bool :=
  negb (String.eqb (configFileUsed cfg) EmptyString)
  && notEmptyString (alertsValue cfg).

(** What [Serve] uses from code outside of server.go: the standard
    library's [url.ParseQuery] and path unescaping, [Name()] of the
    storage engines, the methods of [Handler], the constants and codecs
    of package middleware, and the listener: [ListenAndServe addr files]
    is the error with which [srv.ListenAndServe()], or with certificate
    and key files [srv.ListenAndServeTLS(cert, key)], returns at once
    (address in use, invalid port, unreadable certificate), and [None]
    when the listener takes the address and serves. *)
Record Env : Type := mkEnv {
  ParseQuery : string -> option (gmap string (list string));
  unescape : string -> string;
  Name : Backend -> string;
  defaultHeaders : list (string * string);
  GzipDecodeDecorator : Decorator;
  GzipEncodeDecorator : Decorator;
  GetTenants : Handler -> RouteHandler;
  GetMetrics : Handler -> RouteHandler;
  GetData : Handler -> RouteHandler;
  PostData : Handler -> RouteHandler;
  PostQuery : Handler -> RouteHandler;
  PutMultiTags : Handler -> RouteHandler;
  PutTags : Handler -> RouteHandler;
  DeleteData : Handler -> RouteHandler;
  DeleteTags : Handler -> RouteHandler;
  ListenAndServe : string -> option (string * string) -> option string
}.

(** [&http.Server{Addr, Handler, ReadTimeout, WriteTimeout,
    MaxHeaderBytes}], the timeouts in seconds. *)
Record Server : Type := mkServer {
  Addr : string;
  SrvHandler : Http.Handler;
  ReadTimeout : Z;
  WriteTimeout : Z;
  MaxHeaderBytes : Z
}.

(** What the process does before it serves requests. *)
Inductive Event : Type :=
| EPrint (msg : string)
| EExit (code : Z)
| EPanic
| EOpen (db : Backend) (opts : gmap string (list string))
| EAlertsInit (a : Alerts.AlertsRunner Backend)
| EListen (addr : string) (useTLS : bool).

(** A startup computation: the events so far and, unless the process
    has ended, a result. *)
Definition Proc (A : Type) : Type := (list Event * option A)%type.

Definition ret {A} (a : A) : Proc A := ([], Some a).

Definition bind {A B} (m : Proc A) (f : A -> Proc B) : Proc B :=
  match m with
  | (es, Some a) => let (es', b) := f a in ((es ++ es')%list, b)
  | (es, None) => (es, None)
  end.

Definition emit (e : Event) : Proc unit := ([e], Some tt).

(** [log.Fatal(v...)]: [Print(v...)] followed by [os.Exit(1)]. *)
Definition logFatal {A} (msg : string) : Proc A := ([EPrint msg; EExit 1], None).

(** A failed registration ends the process. *)
Definition must {A} (o : option A) : Proc A :=
  match o with
  | Some a => ret a
  | None => ([EPanic], None)
  end.

Notation "'do' x <- m ;; k" := (bind m (fun x => k))
  (at level 10, x name, m at level 99, k at level 200).

(** The switch on the storage name. *)
Definition selectBackend (backendQuery : string) : option Backend :=
  if String.eqb backendQuery "sqlite" then Some Sqlite
  else if String.eqb backendQuery "memory" then Some Memory
  else if String.eqb backendQuery "mongo" then Some Mongo
  else if String.eqb backendQuery "example" then Some Example
  else None.

Section Serving.

Variable env : Env.

(** The root routing table. *)
Definition rRoot (BackendName : string) (h : Handler) : option Router :=
  rt ← Some (mkRouter "/hawkular/metrics/" []);
  rt ← Add "GET" "status" (GetStatus BackendName) rt;
  rt ← Add "GET" "tenants" (GetTenants env h) rt;
  Add "GET" "metrics" (GetMetrics env h) rt.

(** The metrics routing tables. *)
Definition rGauges (h : Handler) : option Router :=
  rt ← Some (mkRouter "/hawkular/metrics/gauges/" []);
  rt ← Add "GET" ":id/raw" (GetData env h) rt;
  rt ← Add "GET" ":id/stats" (GetData env h) rt;
  rt ← Add "POST" "raw" (PostData env h) rt;
  rt ← Add "POST" "raw/query" (PostQuery env h) rt;
  rt ← Add "PUT" "tags" (PutMultiTags env h) rt;
  rt ← Add "PUT" ":id/tags" (PutTags env h) rt;
  rt ← Add "DELETE" ":id/raw" (DeleteData env h) rt;
  rt ← Add "DELETE" ":id/tags/:tags" (DeleteTags env h) rt;
  (* deprecated *)
  rt ← Add "GET" ":id/data" (GetData env h) rt;
  rt ← Add "POST" "data" (PostData env h) rt;
  Add "POST" "stats/query" (PostQuery env h) rt.

Definition rCounters (h : Handler) : option Router :=
  rt ← Some (mkRouter "/hawkular/metrics/counters/" []);
  rt ← Add "GET" ":id/raw" (GetData env h) rt;
  rt ← Add "GET" ":id/stats" (GetData env h) rt;
  rt ← Add "POST" "raw" (PostData env h) rt;
  rt ← Add "POST" "raw/query" (PostQuery env h) rt;
  rt ← Add "PUT" ":id/tags" (PutTags env h) rt;
  (* deprecated *)
  rt ← Add "GET" ":id/data" (GetData env h) rt;
  rt ← Add "POST" "data" (PostData env h) rt;
  Add "POST" "stats/query" (PostQuery env h) rt.

Definition rAvailability (h : Handler) : option Router :=
  rt ← Some (mkRouter "/hawkular/metrics/availability/" []);
  rt ← Add "GET" ":id/raw" (GetData env h) rt;
  Add "GET" ":id/stats" (GetData env h) rt.

(** The router a sequence of registrations yields. *)
Definition built (o : option Router) : Router :=
  default (mkRouter EmptyString []) o.

(** The parameters a route with the one segment [:id] captures. *)
Definition idArg (id : string) : gmap string string :=
  <["id" := unescape env id]> ∅.

(** The chain of [Serve]: gauges, counters, availability, root. *)
Definition chain (BackendName : string) (h : Handler) : list Router :=
  [built (rGauges h); built (rCounters h);
   built (rAvailability h); built (rRoot BackendName h)].

(** The list of routers, in the order of the [append] call. *)
Definition routers (BackendName : string) (h : Handler) : option (list Router) :=
  g ← rGauges h; c ← rCounters h; a ← rAvailability h;
  r ← rRoot BackendName h;
  Some [g; c; a; r].

(** Fallback handler: static decorator + bad request handler. *)
Definition fallback (media : string) : Http.Handler :=
  FileServeDecorator media BadRequestHandler.

(** All routers, concatenated, with the fallback handler. *)
Definition core (media : string) (rs : list Router) : Http.Handler :=
  Router.Append (unescape env) (fallback media) rs.

Definition statusPattern : string := "^/hawkular/metrics/status$".

(** The authentication stage of [Serve]. *)
Definition authOf (token : string) : Decorator :=
  default (fun h => h) (AuthDecorator token statusPattern).

(** The list of middlewares. *)
Definition decorators (token : string) (gzip : bool) : option (list Decorator) :=
  let ds := [LoggingDecorator; DefaultHeadersDecorator (defaultHeaders env)] in
  ds ← (if negb (String.eqb token EmptyString)
        then a ← AuthDecorator token statusPattern; Some (ds ++ [a])%list
        else Some ds);
  Some (if gzip
        then (ds ++ [GzipDecodeDecorator env; GzipEncodeDecorator env])%list
        else ds).

(** [log.Fatal(srv.ListenAndServe())] and its TLS form: an error of
    the listener is logged and the process exits with status 1;
    otherwise the listener serves and the startup is over. *)
Definition listenOrFatal (srv : Server) (useTLS : bool)
           (files : option (string * string)) : Proc Server :=
  match ListenAndServe env (Addr srv) files with
  | Some err => logFatal err
  | None => do _ <- emit (EListen (Addr srv) useTLS) ;; ret srv
  end.

(** [func Serve() error], up to the point where the listener serves. *)
Definition Serve (cfg : Config) : Proc Server :=
  (* create and init the storage *)
  do db <- match selectBackend (storage cfg) with
        | Some db => ret db
        | None => logFatal ("Can't find storage:" +:+ storage cfg)
        end ;;
  (* parse options *)
  do _ <- match ParseQuery env (options cfg) with
       | Some opts => emit (EOpen db opts)
       | None => logFatal ("Can't parse opetions:" +:+ options cfg)
       end ;;
  (* set global variables *)
  let BackendName := Name env db in
  (* create alerts runner *)
  do _ <- (if configAlerts cfg
        then emit (EAlertsInit (Alerts.mkAlerts Backend db (verbose cfg) (alerts cfg)))
        else ret tt) ;;
  let h := mkHandler (verbose cfg) db in
  do rs <- must (routers BackendName h) ;;
  let core := core (media cfg) rs in
  do ds <- must (decorators (token cfg) (gzip cfg)) ;;
  let handler := Middleware.Append core ds in
  let srv := mkServer ("0.0.0.0:" +:+ pretty (port cfg)) handler 10 10
                      (Z.shiftl 1 20) in
  (* run the server *)
  if tls cfg then
    do _ <- emit (EPrint ("Start server, listen on https://" +:+ Addr srv)) ;;
    listenOrFatal srv true (Some (cert cfg, key cfg))
  else
    do _ <- emit (EPrint ("Start server, listen on http://" +:+ Addr srv)) ;;
    listenOrFatal srv false None.

(** The process has ended with a non-zero status. *)
Definition exitedNonZero (es : list Event) : Prop :=
  exists code, last es = Some (EExit code) /\ code <> 0.

Definition isListen (e : Event) : bool :=
  match e with EListen _ _ => true | _ => false end.

(** The (method, pattern) pairs of a router, with its prefix. *)
Definition table (rt : Router) : list (string * string) :=
  map (fun x => (method x, Prefix rt +:+ pattern x)) (Routes rt).

(** Every (method, full pattern) pair that [Serve] registers. *)
Definition registered (BackendName : string) (h : Handler) : list (string * string) :=
  match routers BackendName h with
  | Some rs => concat (map table rs)
  | None => []
  end.

End Serving.

End Api.

(** ** The REST table of the design document *)

Module Section6.

Definition under (path : string) : string := "/hawkular/metrics/" +:+ path.

(** The rows of the REST table of section 6, one entry per metric kind
    for a row that names several kinds. The rows "OPTIONS any" and
    "any unmatched" name no route and are left out. *)
Definition restTable : list (string * string) :=
  [ ("GET", under "status");
    ("GET", under "tenants");
    ("GET", under "metrics");
    ("GET", under "gauges/:id/raw");
    ("GET", under "counters/:id/raw");
    ("GET", under "availability/:id/raw");
    ("GET", under "gauges/:id/stats");
    ("GET", under "counters/:id/stats");
    ("GET", under "availability/:id/stats");
    ("POST", under "gauges/raw");
    ("POST", under "counters/raw");
    ("POST", under "gauges/raw/query");
    ("POST", under "counters/raw/query");
    ("PUT", under "gauges/:id/tags");
    ("PUT", under "counters/:id/tags");
    ("PUT", under "gauges/tags");
    ("DELETE", under "gauges/:id/raw");
    ("DELETE", under "gauges/:id/tags/:tags") ].

(** The routes that server.go registers under its "deprecated"
    comments. *)
Definition deprecatedTable : list (string * string) :=
  [ ("GET", under "gauges/:id/data");
    ("POST", under "gauges/data");
    ("POST", under "gauges/stats/query");
    ("GET", under "counters/:id/data");
    ("POST", under "counters/data");
    ("POST", under "counters/stats/query") ].

(** [has rt m p]: router [rt] has a route for method [m] and pattern [p]. *)
Definition has (rt : Router.Router) (m p : string) : bool :=
  existsb (Router.sameKey m p) (Router.Routes rt).

(** Membership in a list of (method, path) pairs, as a boolean. *)
Definition memRoute (x : string * string) (l : list (string * string)) : bool :=
  existsb (fun y => String.eqb x.1 y.1 && String.eqb x.2 y.2) l.

End Section6.

(** ** net/url: query strings *)

Module Url.

(** The value of a hexadecimal digit. *)
Definition unhex (c : ascii) : option N :=
  let n := N_of_ascii c in
  if inRangeN 48 57 n then Some (n - 48)%N
  else if inRangeN 97 102 n then Some (n - 87)%N
  else if inRangeN 65 70 n then Some (n - 55)%N
  else None.

(** [url.QueryUnescape]: a percent sign and two hexadecimal digits give
    a byte, a plus sign gives a space; a percent sign without two
    hexadecimal digits is an error. *)
Fixpoint QueryUnescape (s : string) : option string :=
  match s with
  | EmptyString => Some EmptyString
  | String c t =>
      if Ascii.eqb c "%"%char then
        match t with
        | String a (String b t') =>
            match unhex a, unhex b with
            | Some x, Some y =>
                String (ascii_of_N (16 * x + y)) <$> QueryUnescape t'
            | _, _ => None
            end
        | _ => None
        end
      else if Ascii.eqb c "+"%char then String " "%char <$> QueryUnescape t
      else String c <$> QueryUnescape t
  end.

(** [strings.Cut(s, sep)] for a separator of one byte. *)
Fixpoint cut (sep : ascii) (s : string) : string * string :=
  match s with
  | EmptyString => (EmptyString, EmptyString)
  | String c t =>
      if Ascii.eqb c sep then (EmptyString, t)
      else let (a, b) := cut sep t in (String c a, b)
  end.

Fixpoint hasByte (sep : ascii) (s : string) : bool :=
  match s with
  | EmptyString => false
  | String c t => Ascii.eqb c sep || hasByte sep t
  end.

(** [strings.Split(s, sep)] for a separator of one byte. *)
Fixpoint splitOn (sep : ascii) (s : string) : list string :=
  match s with
  | EmptyString => [EmptyString]
  | String c t =>
      if Ascii.eqb c sep then EmptyString :: splitOn sep t
      else match splitOn sep t with
           | x :: xs => String c x :: xs
           | [] => [String c EmptyString]
           end
  end.

(** One round of the loop of [parseQuery] on the text between two
    ampersands: the values so far and whether no error has occurred. *)
Definition addPair (acc : gmap string (list string) * bool) (piece : string)
  : gmap string (list string) * bool :=
  let (m, ok) := acc in
  if hasByte ";"%char piece then (m, false)
  else if String.eqb piece EmptyString then acc
  else
    let (k, v) := cut "="%char piece in
    match QueryUnescape k, QueryUnescape v with
    | Some k', Some v' => (<[k' := (default [] (m !! k') ++ [v'])%list]> m, ok)
    | _, _ => (m, false)
    end.

(** [url.ParseQuery] (Go 1.17 and later, where a semicolon is an
    error); [None] when the error it returns is not nil. *)
Definition ParseQuery (query : string) : option (gmap string (list string)) :=
  let (m, ok) := foldl addPair (∅, true) (splitOn "&"%char query) in
  if ok then Some m else None.

End Url.

(** ** A concrete environment

    A small instance of what the server takes from outside, used to
    evaluate the definitions above on concrete inputs. *)

Module Sample.

Import Api.

(** The options parser of the samples: [url.ParseQuery]. *)
Definition parseQuery (s : string) : option (gmap string (list string)) :=
  Url.ParseQuery s.

(** The listener of the samples: port 80 is taken, every other address
    is free. *)
Definition listen (addr : string) (files : option (string * string))
  : option string :=
  if String.eqb addr "0.0.0.0:80"
  then Some "listen tcp 0.0.0.0:80: bind: address already in use"
  else None.

(** A route handler that only leaves its name in the log. *)
Definition named (n : string) : Handler -> Router.RouteHandler :=
  fun _ _ _ s => logPrintf n s.

Definition backendName (b : Backend) : string :=
  match b with
  | Sqlite => "Backend-Sqlite"
  | Memory => "Backend-Memory"
  | Mongo => "Backend-Mongo"
  | Example => "Backend-Example"
  end.

Definition env : Env :=
  mkEnv parseQuery (fun s => s) backendName
        [("Content-Type", "application/json"); ("Access-Control-Allow-Origin", "*")]
        (fun next => next) (fun next => next)
        (named "GetTenants") (named "GetMetrics") (named "GetData")
        (named "PostData") (named "PostQuery") (named "PutMultiTags")
        (named "PutTags") (named "DeleteData") (named "DeleteTags")
        listen.

Definition config (storage options token : string) : Config :=
  mkConfig storage options false "/media" false false token 8080
           "server.pem" "server.key" EmptyString VNil [].

Definition request (m path : string) : Request :=
  mkRequest m path path "127.0.0.1:4000" ∅.

Definition world : World := mkWorld newWriter [] ∅.

Definition handler : Handler := mkHandler false Memory.

(** The server that [Serve] installs for the memory storage. *)
Definition server (cfg : Config) : Server :=
  mkServer ("0.0.0.0:" +:+ pretty (port cfg))
    (Middleware.Append
       (core env (media cfg)
          (default [] (routers env (Name env Memory)
                               (mkHandler (verbose cfg) Memory))))
       (default [] (decorators env (token cfg) (gzip cfg))))
    10 10 (Z.shiftl 1 20).

Definition statusRequest : Request := request "GET" "/hawkular/metrics/status".

(** Three calls: two on the gauge cpu, with three points at time 5
    between them, and one on another metric. *)
Definition writes : list (Storage.WriteCall Q) :=
  [ Storage.mkWriteCall "tenant" "cpu" [(5, 1.5%Q); (3, 2%Q); (5, 7%Q)];
    Storage.mkWriteCall "tenant" "mem" [(5, 9%Q)];
    Storage.mkWriteCall "tenant" "cpu" [(5, 4%Q)] ].

(** The rule of the design document's example: threshold 90, operator >. *)
Definition rule : Alerts.Alert :=
  Alerts.mkAlert "cpu-high" "cpu" 90%Q Alerts.Gt 5 Alerts.OK.

End Sample.

(** ** Startup computations of the older programs *)

Module Process.

Section Events.

(** The storage engines of a release. *)
Context {B : Type}.

(** What a program does before it serves requests. [Stdout] is a
    [fmt.Printf], [Log] a line of package log, [Return] the return from
    [main] (exit status 0), [Open] a call of [db.Open] with or without
    options, [Listen] the start of the listener, with the certificate
    and key files when TLS is used. *)
Inductive Event : Type :=
| Stdout (text : string)
| Log (msg : string)
| Exit (code : Z)
| Return
| Panic
| Open (db : B) (opts : option (gmap string (list string)))
| Listen (addr : string) (tlsFiles : option (string * string)).

Definition Proc (A : Type) : Type := (list Event * option A)%type.

Definition ret {A} (a : A) : Proc A := ([], Some a).

Definition bind {A C} (m : Proc A) (f : A -> Proc C) : Proc C :=
  match m with
  | (es, Some a) => let (es', b) := f a in ((es ++ es')%list, b)
  | (es, None) => (es, None)
  end.

Definition emit (e : Event) : Proc unit := ([e], Some tt).

(** [log.Fatal(v...)]: [Print(v...)] followed by [os.Exit(1)]. *)
Definition logFatal {A} (msg : string) : Proc A := ([Log msg; Exit 1], None).

(** A failed registration ends the process. *)
Definition must {A} (o : option A) : Proc A :=
  match o with
  | Some a => ret a
  | None => ([Panic], None)
  end.

Definition isListen (e : Event) : bool :=
  match e with Listen _ _ => true | _ => false end.

Definition isOpen (e : Event) : bool :=
  match e with Open _ _ => true | _ => false end.

End Events.

Arguments Event : clear implicits.
Arguments Proc : clear implicits.

Notation "'run' x <- m ;; k" := (bind m (fun x => k))
  (at level 10, x name, m at level 99, k at level 200).

End Process.

(** ** package main of release 0.10: the program *)

Module Release010.

Import Router Middleware Process.

Definition defaultPort : Z := 8080.
Definition defaultBackend : string := "sqlite".
Definition defaultTLS : bool := false.
Definition defaultTLSKey : string := "server.key".
Definition defaultTLSCert : string := "server.pem".

(** The values of the command line flags after [flag.Parse()]. *)
Record Flags : Type := mkFlags {
  port : Z;
  backend : string;
  tls : bool;
  gzip : bool;
  options : string;
  verbose : bool;
  quiet : bool;
  version : bool;
  key : string;
  cert : string
}.

(** The flags of a command line without arguments. *)
Definition defaultFlags : Flags :=
  mkFlags defaultPort defaultBackend defaultTLS false EmptyString false false
          false defaultTLSKey defaultTLSCert.

(** The one storage engine of this release. *)
Inductive Backend : Type := Sqlite.

(** [backend.Handler{Verbose, Backend}]. *)
Record Handler : Type := mkHandler {
  HVerbose : bool;
  HBackend : Backend
}.

(** The elements of [middlewareList]. *)
Inductive MiddleWare : Type :=
| MLogger (Quiet Verbose : bool)
| MGZipper (UseGzip Verbose : bool)
| MRouter (rt : Router)
| MBadRequest (b : BadRequest).

(** What [main] uses from code outside of its file: [url.ParseQuery],
    [Name()] of the storage engine, the methods of [backend.Handler],
    and [middleware.Append], given as the handler that the first
    element of the list is once the list has been linked. *)
Record Env : Type := mkEnv {
  ParseQuery : string -> option (gmap string (list string));
  Name : Backend -> string;
  GetTenants : Handler -> RouteHandler;
  GetMetrics : Handler -> RouteHandler;
  GetData : Handler -> RouteHandler;
  PostData : Handler -> RouteHandler;
  PostQuery : Handler -> RouteHandler;
  PutTags : Handler -> RouteHandler;
  DeleteData : Handler -> RouteHandler;
  DeleteTags : Handler -> RouteHandler;
  Append : list MiddleWare -> Http.Handler
}.

Section Program.

Variable env : Env.

(** Root routing table. *)
Definition rRoot (BackendName : string) (h : Handler) : option Router :=
  rt ← Some (mkRouter "/hawkular/metrics/" []);
  rt ← Add "GET" "status" (Main010.GetStatus BackendName) rt;
  rt ← Add "GET" "tenants" (GetTenants env h) rt;
  Add "GET" "metrics" (GetMetrics env h) rt.

(** Metrics routing tables. *)
Definition rGauges (h : Handler) : option Router :=
  rt ← Some (mkRouter "/hawkular/metrics/gauges/" []);
  rt ← Add "GET" ":id/raw" (GetData env h) rt;
  rt ← Add "GET" ":id/stats" (GetData env h) rt;
  rt ← Add "POST" "raw" (PostData env h) rt;
  rt ← Add "POST" "raw/query" (PostQuery env h) rt;
  rt ← Add "PUT" ":id/tags" (PutTags env h) rt;
  rt ← Add "DELETE" ":id/raw" (DeleteData env h) rt;
  Add "DELETE" ":id/tags/:tags" (DeleteTags env h) rt.

Definition rCounters (h : Handler) : option Router :=
  rt ← Some (mkRouter "/hawkular/metrics/counters/" []);
  rt ← Add "GET" ":id/raw" (GetData env h) rt;
  rt ← Add "GET" ":id/stats" (GetData env h) rt;
  rt ← Add "POST" "raw" (PostData env h) rt;
  rt ← Add "POST" "raw/query" (PostQuery env h) rt;
  Add "PUT" ":id/tags" (PutTags env h) rt.

Definition rAvailability (h : Handler) : option Router :=
  rt ← Some (mkRouter "/hawkular/metrics/availability/" []);
  rt ← Add "GET" ":id/raw" (GetData env h) rt;
  Add "GET" ":id/stats" (GetData env h) rt.

(** [middlewareList]: first the logger, until rRoot, with the fallback
    to BadRequest at the end. *)
Definition middlewareList (f : Flags) (g c a r : Router) : list MiddleWare :=
  [MLogger (quiet f) (verbose f); MGZipper (gzip f) (verbose f);
   MRouter g; MRouter c; MRouter a; MRouter r;
   MBadRequest (mkBadRequest false)].

(** [http.Server.Addr]. *)
Definition addr (f : Flags) : string := "0.0.0.0:" +:+ pretty (port f).

(** [func main()], up to the point where the listener takes over. *)
Definition main (f : Flags) : Proc Backend Api.Server :=
  (* return version number and exit *)
  if version f then
    ([Stdout ("MoHawk version: " +:+ Main010.VER +:+ nl +:+ nl); Return], None)
  else
    (* create and init the backend *)
    run db <- (if String.eqb (backend f) "sqlite" then ret Sqlite
               else logFatal ("Can't find backend:" +:+ backend f)) ;;
    (* parse options *)
    run _ <- match ParseQuery env (options f) with
             | Some opts => emit (Open db (Some opts))
             | None => logFatal ("Can't parse opetions:" +:+ options f)
             end ;;
    (* set global variables *)
    let BackendName := Name env db in
    let h := mkHandler (verbose f) db in
    run r <- must (rRoot BackendName h) ;;
    run g <- must (rGauges h) ;;
    run c <- must (rCounters h) ;;
    run a <- must (rAvailability h) ;;
    let srv := Api.mkServer (addr f) (Append env (middlewareList f g c a r))
                            10 10 (Z.shiftl 1 20) in
    if tls f then
      run _ <- emit (Log ("Start server, listen on https://" +:+ Api.Addr srv)) ;;
      run _ <- emit (Listen (Api.Addr srv) (Some (cert f, key f))) ;;
      ret srv
    else
      run _ <- emit (Log ("Start server, listen on http://" +:+ Api.Addr srv)) ;;
      run _ <- emit (Listen (Api.Addr srv) None) ;;
      ret srv.

(** Every (method, full pattern) pair that [main] registers. *)
Definition registered (BackendName : string) (h : Handler) : list (string * string) :=
  concat (map (fun o => Api.table (default (mkRouter EmptyString []) o))
              [rGauges h; rCounters h; rAvailability h; rRoot BackendName h]).

End Program.

End Release010.

(** ** package main of release 0.6: the program *)

Module Release061.

Import Router Process.

Definition VER : string := "0.6.1".

(** The values of the command line flags after [flag.Parse()]. *)
Record Flags : Type := mkFlags {
  port : Z;
  backend : string;
  api : string;
  tls : string
}.

(** The flags of a command line without arguments. *)
Definition defaultFlags : Flags := mkFlags 8443 "random" "0.21.0" "true".

(** [backend.Sqlite] and [backend.Random]. *)
Inductive Backend : Type := Sqlite | Random.

(** [Handler{backend, version}]. *)
Record Handler : Type := mkHandler {
  Hbackend : Backend;
  Hversion : string
}.

(** The elements of the list given to [router.ConcatMiddleWares]. *)
Inductive MiddleWare : Type :=
| MLogger
| MRouter (rt : Router).

(** What [main] uses from code outside of its file: the methods of
    [Handler] and [router.ConcatMiddleWares] with the fallback
    [BadRequest{}], given as the handler that the first element of the
    list is afterwards. *)
Record Env : Type := mkEnv {
  GetAPIVersions : Handler -> RouteHandler;
  GetStatus : Handler -> RouteHandler;
  GetMetrics : Handler -> RouteHandler;
  GetTenants : Handler -> RouteHandler;
  GetData : Handler -> RouteHandler;
  PostData : Handler -> RouteHandler;
  PostQuery : Handler -> RouteHandler;
  PutTags : Handler -> RouteHandler;
  ConcatMiddleWares : list MiddleWare -> Http.Handler
}.

Section Program.

Variable env : Env.

(** Root routing table. *)
Definition rRoot (h : Handler) : option Router :=
  rt ← Some (mkRouter "/" []);
  rt ← Add "GET" "oapi" (GetAPIVersions env h) rt;
  Add "GET" "hawkular/metrics/status" (GetStatus env h) rt.

(** Metrics routing table. *)
Definition rMetrics (h : Handler) : option Router :=
  rt ← Some (mkRouter "/hawkular/metrics/" []);
  rt ← Add "GET" "metrics" (GetMetrics env h) rt;
  rt ← Add "GET" "tenants" (GetTenants env h) rt;
  (* api version >= 0.16.0 *)
  rt ← Add "GET" "gauges/:id/raw" (GetData env h) rt;
  rt ← Add "GET" "counters/:id/raw" (GetData env h) rt;
  rt ← Add "GET" "availability/:id/raw" (GetData env h) rt;
  rt ← Add "GET" "gauges/:id/stats" (GetData env h) rt;
  rt ← Add "GET" "counters/:id/stats" (GetData env h) rt;
  rt ← Add "GET" "availability/:id/stats" (GetData env h) rt;
  rt ← Add "POST" "gauges/raw" (PostData env h) rt;
  rt ← Add "POST" "gauges/raw/query" (PostQuery env h) rt;
  rt ← Add "POST" "counters/raw" (PostData env h) rt;
  rt ← Add "POST" "counters/raw/query" (PostQuery env h) rt;
  rt ← Add "PUT" "gauges/:id/tags" (PutTags env h) rt;
  rt ← Add "PUT" "counters/:id/tags" (PutTags env h) rt;
  (* api version < 0.16.0 *)
  rt ← Add "GET" "gauges/:id/data" (GetData env h) rt;
  rt ← Add "GET" "counters/:id/data" (GetData env h) rt;
  rt ← Add "GET" "availability/:id/data" (GetData env h) rt;
  rt ← Add "POST" "gauges/data" (PostData env h) rt;
  Add "POST" "counters/data" (PostData env h) rt.

(** The list that is concatenated: without the metrics router when the
    backend flag is "error". *)
Definition middlewares (f : Flags) (m r : Router) : list MiddleWare :=
  if String.eqb (backend f) "error" then [MLogger; MRouter r]
  else [MLogger; MRouter m; MRouter r].

(** The storage engine a flag value selects. *)
Definition selectBackend (name : string) : Backend :=
  if String.eqb name "sqlite" then Sqlite else Random.

(** [func main()], up to the point where the listener takes over. *)
Definition main (f : Flags) : Proc Backend Api.Server :=
  (* create and init the backend *)
  let db := selectBackend (backend f) in
  run _ <- emit (Open db None) ;;
  let h := mkHandler db (api f) in
  run r <- must (rRoot h) ;;
  run m <- must (rMetrics h) ;;
  let srv := Api.mkServer ("0.0.0.0:" +:+ pretty (port f))
                          (ConcatMiddleWares env (middlewares f m r))
                          10 10 (Z.shiftl 1 20) in
  if String.eqb (tls f) "true" then
    run _ <- emit (Log ("Start server, listen on https://" +:+ Api.Addr srv)) ;;
    run _ <- emit (Listen (Api.Addr srv) (Some ("server.pem", "server.key"))) ;;
    ret srv
  else
    run _ <- emit (Log ("Start server, listen on http://" +:+ Api.Addr srv)) ;;
    run _ <- emit (Listen (Api.Addr srv) None) ;;
    ret srv.

Definition routesOf (mw : MiddleWare) : list (string * string) :=
  match mw with
  | MLogger => []
  | MRouter rt => Api.table rt
  end.

(** Every (method, full pattern) pair that is reachable through the
    list [main] concatenates. *)
Definition registered (f : Flags) (h : Handler) : list (string * string) :=
  concat (map routesOf
              (middlewares f (default (mkRouter EmptyString []) (rMetrics h))
                             (default (mkRouter EmptyString []) (rRoot h)))).

End Program.

End Release061.

(** ** Reading the events of [Serve] *)

Module ApiStartup.

Import Api.

Definition isPanic (e : Event) : bool :=
  match e with EPanic => true | _ => false end.

Definition isAlertsInit (e : Event) : bool :=
  match e with EAlertsInit _ => true | _ => false end.

(** The address [Serve] gives to the server and the files it gives to
    the listener. *)
Definition addrOf (cfg : Config) : string := "0.0.0.0:" +:+ pretty (port cfg).

Definition filesOf (cfg : Config) : option (string * string) :=
  if tls cfg then Some (cert cfg, key cfg) else None.

End ApiStartup.

(** ** Further concrete inputs *)

Module Fixtures.

(** A response whose status line and first bytes are already out. *)
Definition startedWorld : World :=
  mkWorld (mkResponseWriter true 201 {["X-Served-By" := "static"]}
                            {["X-Served-By" := "static"]} "partial")
          ["earlier entry"] ∅.

(** A configuration with an alert list. *)
Definition alertsConfig : Api.Config :=
  Api.mkConfig "sqlite" "db-dirname=/tmp" true "/media" true true "secret" 8443
               "server.pem" "server.key" "/etc/mohawk.yaml" Api.VOther
               [Sample.rule].

(** A configuration from a config file that has no alerts key. *)
Definition noAlertsKeyConfig : Api.Config :=
  Api.mkConfig "memory" EmptyString false "/media" false false EmptyString 8080
               "server.pem" "server.key" "/etc/mohawk.yaml" Api.VNil [].

(** A configuration for a port that is taken. *)
Definition busyPortConfig : Api.Config :=
  Api.mkConfig "memory" EmptyString false "/media" false false EmptyString 80
               "server.pem" "server.key" "/etc/mohawk.yaml" Api.VOther
               [Sample.rule].

(** A header block as the server writes it for a response whose handler
    set no header before the status line. *)
Definition sampleWire : gmap string string :=
  <["Date" := "Mon, 02 Nov 2026 10:00:00 GMT"]>
    (<["Content-Length" := "30"]>
       (<["Content-Type" := "text/plain; charset=utf-8"]> ∅)).

Definition silent : Router.RouteHandler := fun _ _ s => s.

Definition env010 : Release010.Env :=
  Release010.mkEnv Sample.parseQuery (fun _ => "Backend-Sqlite")
    (fun _ => silent) (fun _ => silent) (fun _ => silent) (fun _ => silent)
    (fun _ => silent) (fun _ => silent) (fun _ => silent) (fun _ => silent)
    (fun _ _ s => s).

Definition env061 : Release061.Env :=
  Release061.mkEnv
    (fun _ => silent) (fun _ => silent) (fun _ => silent) (fun _ => silent)
    (fun _ => silent) (fun _ => silent) (fun _ => silent) (fun _ => silent)
    (fun _ _ s => s).

End Fixtures.

(** * Properties *)

(** ** Texts *)

(** The two character constants are the double quote and the newline. *)
Example dq_nl_codes :
  dq = String "034"%char EmptyString /\ nl = String "010"%char EmptyString.
Proof. split; reflexivity. Qed.

Lemma append_assoc (a b c : string) : (a +:+ b) +:+ c = a +:+ (b +:+ c).
Proof.
  induction a as [| x a IH]; [reflexivity |].
  change (String x ((a +:+ b) +:+ c) = String x (a +:+ (b +:+ c))).
  f_equal. exact IH.
Qed.

Lemma append_length (a b : string) :
  String.length (a +:+ b) = (String.length a + String.length b)%nat.
Proof.
  induction a as [| x a IH]; [reflexivity |].
  change (S (String.length (a +:+ b)) = S (String.length a + String.length b)).
  f_equal. exact IH.
Qed.

Lemma append_cancel_l (a x y : string) : a +:+ x = a +:+ y -> x = y.
Proof.
  induction a as [| c a IH]; intros H; [exact H |].
  change (String c (a +:+ x) = String c (a +:+ y)) in H.
  injection H as H. exact (IH H).
Qed.

Lemma append_cancel_r (c x y : string) : x +:+ c = y +:+ c -> x = y.
Proof.
  revert y. induction x as [| a x IH]; intros [| b y] H.
  - reflexivity.
  - apply (f_equal String.length) in H. rewrite !append_length in H.
    cbn [String.length] in H. lia.
  - apply (f_equal String.length) in H. rewrite !append_length in H.
    cbn [String.length] in H. lia.
  - change (String a (x +:+ c) = String b (y +:+ c)) in H.
    injection H as -> H. rewrite (IH y H). reflexivity.
Qed.

(** The status document, member by member. *)
Lemma resTemplate_spelled (api ver name : string) :
  resTemplate api ver name +:+ nl
    = "{" +:+ dq +:+ "MetricsService" +:+ dq +:+ ":" +:+ dq +:+ "STARTED" +:+ dq
          +:+ "," +:+ dq +:+ "Implementation-Version" +:+ dq +:+ ":"
          +:+ dq +:+ api +:+ dq
          +:+ "," +:+ dq +:+ "MohawkVersion" +:+ dq +:+ ":" +:+ dq +:+ ver +:+ dq
          +:+ "," +:+ dq +:+ "MohawkBackend" +:+ dq +:+ ":" +:+ dq +:+ name +:+ dq
          +:+ "}" +:+ nl.
Proof. unfold resTemplate, quoted. rewrite !append_assoc. reflexivity. Qed.

(** ** Response writers *)

Lemma fresh_sample : fresh Sample.world.
Proof. split; reflexivity. Qed.

Lemma fresh_logPrintf (msg : string) (s : World) :
  fresh s -> fresh (logPrintf msg s).
Proof. intros [Hw Hb]; split; assumption. Qed.

Lemma headers_keep_writer (hs : list (string * string)) (w : ResponseWriter) :
  let w' := foldl (fun w kv => HeaderSet kv.1 kv.2 w) w hs in
  wroteHeader w' = wroteHeader w /\ status w' = status w /\
  snapshot w' = snapshot w /\ body w' = body w.
Proof.
  revert w. induction hs as [| kv hs IH]; intros w; cbn.
  - repeat split.
  - destruct (IH (HeaderSet kv.1 kv.2 w)) as (A & B & C & D).
    cbn in A, B, C, D. rewrite A, B, C, D. repeat split.
Qed.

Lemma fresh_headers (hs : list (string * string)) (s : World) :
  fresh s ->
  fresh (onResp (fun w => foldl (fun w kv => HeaderSet kv.1 kv.2 w) w hs) s).
Proof.
  intros [Hw Hb].
  destruct (headers_keep_writer hs (resp s)) as (A & _ & _ & D).
  split; cbn; [rewrite A | rewrite D]; assumption.
Qed.

(** A first status line and a first write decide status and body. *)
Lemma first_write (code : Z) (data : string) (s : World) :
  fresh s ->
  status (resp (Fprintf data (onResp (WriteHeader code) s))) = code /\
  body (resp (Fprintf data (onResp (WriteHeader code) s))) = data.
Proof.
  intros [Hw Hb].
  unfold Fprintf, onResp, Write, WriteHeader; cbn.
  rewrite Hw; cbn. rewrite Hb. split; reflexivity.
Qed.

(** ** The bad-request handler *)

Lemma BadRequest_writes (b : Middleware.BadRequest) (r : Request) (s : World) :
  fresh s ->
  (Method r = "OPTIONS" ->
     status (resp (Middleware.ServeHTTP b r s)) = 200 /\
     body (resp (Middleware.ServeHTTP b r s)) = Middleware.capabilityBody) /\
  (Method r <> "OPTIONS" ->
     status (resp (Middleware.ServeHTTP b r s)) = 404 /\
     body (resp (Middleware.ServeHTTP b r s)) = Middleware.notFoundBody).
Proof.
  intros F. unfold Middleware.ServeHTTP.
  destruct (String.eqb_spec (Method r) "OPTIONS") as [E | E].
  - split; [intros _ | intros N; contradiction].
    destruct F as [Hw Hb].
    unfold Fprintf, onResp, Write, WriteHeader, HeaderSet; cbn.
    rewrite Hw; cbn. rewrite Hb. split; reflexivity.
  - split; [intros N; contradiction | intros _].
    apply (first_write 404 Middleware.notFoundBody _),
          fresh_logPrintf, fresh_logPrintf, F.
Qed.

(** C1: on a response that is still untouched, the bad-request handler
    answers an OPTIONS request with status 200 and the body
    {"GET":{},"PUT":{},"POST":{}}, and every other method with status
    404 and the body "Page not found - 404\n". In the statement [q] is
    the double quote and [n] the newline. *)
Theorem C1_bad_request_response :
  forall (b : Middleware.BadRequest) (r : Request) (s : World),
    fresh s ->
    let q := String "034"%char EmptyString in
    let n := String "010"%char EmptyString in
    (Method r = "OPTIONS" ->
       status (resp (Middleware.ServeHTTP b r s)) = 200 /\
       body (resp (Middleware.ServeHTTP b r s))
         = "{" +:+ q +:+ "GET" +:+ q +:+ ":{}," +:+ q +:+ "PUT" +:+ q +:+ ":{},"
               +:+ q +:+ "POST" +:+ q +:+ ":{}}") /\
    (Method r <> "OPTIONS" ->
       status (resp (Middleware.ServeHTTP b r s)) = 404 /\
       body (resp (Middleware.ServeHTTP b r s)) = "Page not found - 404" +:+ n).
Proof. intros b r s F. exact (BadRequest_writes b r s F). Qed.

Lemma C1_bad_request_response_witness :
  fresh Sample.world /\
  (status (resp (Middleware.ServeHTTP (Middleware.mkBadRequest false)
                   (Sample.request "OPTIONS" "/any") Sample.world)) = 200 /\
   body (resp (Middleware.ServeHTTP (Middleware.mkBadRequest false)
                 (Sample.request "OPTIONS" "/any") Sample.world))
     = "{" +:+ String "034"%char "GET" +:+ String "034"%char ":{},"
           +:+ String "034"%char "PUT" +:+ String "034"%char ":{},"
           +:+ String "034"%char "POST" +:+ String "034"%char ":{}}") /\
  (status (resp (Middleware.ServeHTTP (Middleware.mkBadRequest false)
                   (Sample.request "DELETE" "/any") Sample.world)) = 404 /\
   body (resp (Middleware.ServeHTTP (Middleware.mkBadRequest false)
                 (Sample.request "DELETE" "/any") Sample.world))
     = "Page not found - 404" +:+ String "010"%char EmptyString).
Proof.
  split; [exact fresh_sample |]. split.
  - apply (C1_bad_request_response (Middleware.mkBadRequest false)
             (Sample.request "OPTIONS" "/any") Sample.world fresh_sample).
    reflexivity.
  - apply (C1_bad_request_response (Middleware.mkBadRequest false)
             (Sample.request "DELETE" "/any") Sample.world fresh_sample).
    discriminate.
Defined.

(** The headers the OPTIONS branch sets after the status line stay in the
    handler's map and are not part of the snapshot. *)
Example options_headers_after_status :
  let s := Middleware.ServeHTTP (Middleware.mkBadRequest false)
             (Sample.request "OPTIONS" "/any") Sample.world in
  snapshot (resp s) = ∅ /\
  header (resp s) !! "Content-Type" = Some "application/json".
Proof. split; reflexivity. Qed.

(** C10: the bad-request handler is terminal. [SetNext] returns the
    handler unchanged whatever successor it is given, and the response
    of [ServeHTTP] is the same for any two successors. *)
Theorem C10_bad_request_terminal :
  forall (b : Middleware.BadRequest) (h1 h2 : Handler) (r : Request) (s : World),
    Middleware.SetNext b h1 = b /\
    Middleware.SetNext b h1 = Middleware.SetNext b h2 /\
    Middleware.ServeHTTP (Middleware.SetNext b h1) r s
      = Middleware.ServeHTTP (Middleware.SetNext b h2) r s.
Proof. intros b h1 h2 r s. repeat split. Qed.

(** By contrast the logging handler keeps its successor and calls it. *)
Lemma logger_calls_next (l : HandlerPkg.Logger) (h : Handler) (r : Request) (s : World) :
  HandlerPkg.ServeHTTP (HandlerPkg.SetNext l h) r s
    = Some (h r (logPrintf (accessLine r) s)).
Proof. reflexivity. Qed.

(** ** The router *)

Section RouterFacts.

Variable unescape : string -> string.

Lemma cutPrefix_app (p s : string) : Router.cutPrefix p (p +:+ s) = Some s.
Proof.
  induction p as [| a p IH]; simpl; [reflexivity |].
  rewrite Ascii.eqb_refl. exact IH.
Qed.

Lemma split_nonempty (s : string) : Router.split s <> [].
Proof.
  induction s as [| c t IH]; cbn; [discriminate |].
  destruct (Ascii.eqb c "/"); [discriminate |].
  destruct (Router.split t); [contradiction | discriminate].
Qed.

(** A segment followed by a slash is the first token. *)
Lemma split_segment (x rest : string) :
  Router.isSegment x = true ->
  Router.split (x +:+ String "/" rest) = x :: Router.split rest.
Proof.
  induction x as [| c t IH]; simpl; intros H; [reflexivity |].
  apply andb_prop in H as [Hc Ht].
  destruct (Ascii.eqb c "/"); [discriminate |].
  rewrite (IH Ht). reflexivity.
Qed.

Lemma split_last_segment (x : string) :
  Router.isSegment x = true -> Router.split x = [x].
Proof.
  induction x as [| c t IH]; cbn; intros H; [reflexivity |].
  apply andb_prop in H as [Hc Ht].
  destruct (Ascii.eqb c "/"); [discriminate |].
  rewrite (IH Ht). reflexivity.
Qed.

(** A path outside of the router's prefix never matches that router. *)
Lemma Match_outside_prefix (rt : Router.Router) (m path : string) :
  Router.cutPrefix (Router.Prefix rt) path = None ->
  Router.Match unescape rt m path = None.
Proof. intros H. unfold Router.Match. rewrite H. reflexivity. Qed.

(** The chain built by [Append] behaves as the chaining rule says. *)
Lemma Append_tryInOrder (fb : Handler) (rs : list Router.Router)
      (r : Request) (s : World) :
  Router.Append unescape fb rs r s =
    match Router.tryInOrder unescape rs (Method r) (URLPath r) with
    | Some (h, argv) => h r argv s
    | None => fb r s
    end.
Proof.
  induction rs as [| rt rs IH]; cbn; [reflexivity |].
  unfold Router.ServeHTTP at 1.
  destruct (Router.Match unescape rt (Method r) (URLPath r)) as [[h argv] |].
  - reflexivity.
  - exact IH.
Qed.

End RouterFacts.

(** ** The routing tables of [Serve] *)

Section ServeFacts.

Import Api.

Variable env : Env.

Lemma rGauges_built (h : Handler) : rGauges env h = Some (built (rGauges env h)).
Proof. reflexivity. Qed.

Lemma rCounters_built (h : Handler) : rCounters env h = Some (built (rCounters env h)).
Proof. reflexivity. Qed.

Lemma rAvailability_built (h : Handler) :
  rAvailability env h = Some (built (rAvailability env h)).
Proof. reflexivity. Qed.

Lemma rRoot_built (name : string) (h : Handler) :
  rRoot env name h = Some (built (rRoot env name h)).
Proof. reflexivity. Qed.

(** No registration fails: the four routers exist, in this order. *)
Lemma routers_built (name : string) (h : Handler) :
  routers env name h =
    Some [built (rGauges env h); built (rCounters env h);
          built (rAvailability env h); built (rRoot env name h)].
Proof. reflexivity. Qed.

(** The exemption pattern compiles, so the middleware list exists. *)
Lemma statusPattern_compiles :
  Middleware.Compile statusPattern
    = Some (Middleware.mkRegexp true true "/hawkular/metrics/status").
Proof. reflexivity. Qed.

Lemma AuthDecorator_built (token : string) :
  Middleware.AuthDecorator token statusPattern = Some (authOf token).
Proof. reflexivity. Qed.

Lemma decorators_built (token : string) (gz : bool) :
  decorators env token gz =
    Some ([Middleware.LoggingDecorator;
           Middleware.DefaultHeadersDecorator (defaultHeaders env)]
            ++ (if negb (String.eqb token EmptyString) then [authOf token] else [])
            ++ (if gz then [GzipDecodeDecorator env; GzipEncodeDecorator env] else []))%list.
Proof.
  unfold decorators.
  destruct (negb (String.eqb token EmptyString)); destruct gz; reflexivity.
Qed.

(** [Serve] reaches the listener exactly when the storage name is
    supported and the options parse; the handler it installs is the
    middleware chain around the router chain. *)
Lemma Serve_running (cfg : Config) (es : list Event) (srv : Server) :
  Serve env cfg = (es, Some srv) ->
  exists db opts,
    selectBackend (storage cfg) = Some db /\
    ParseQuery env (options cfg) = Some opts /\
    forall rs ds,
      routers env (Name env db) (mkHandler (verbose cfg) db) = Some rs ->
      decorators env (token cfg) (gzip cfg) = Some ds ->
      SrvHandler srv = Middleware.Append (core env (media cfg) rs) ds.
Proof.
  unfold Serve. intros H. cbv zeta in H.
  destruct (selectBackend (storage cfg)) as [db |] eqn:Hdb; [| discriminate].
  destruct (ParseQuery env (options cfg)) as [opts |] eqn:Hopts; [| discriminate].
  exists db, opts. split; [reflexivity |]. split; [reflexivity |].
  intros rs ds Hrs Hds.
  cbv beta iota delta [bind ret emit] in H.
  destruct (configAlerts cfg); rewrite Hrs, Hds in H;
    cbv beta iota delta [must ret] in H;
    destruct (tls cfg);
    cbv beta iota zeta delta [listenOrFatal bind ret emit logFatal Addr] in H;
    match type of H with
    | context [ListenAndServe env ?a ?f] =>
        destruct (ListenAndServe env a f)
    end;
    inversion H; reflexivity.
Qed.

End ServeFacts.

Lemma sample_serve (token : string) :
  Api.Serve Sample.env (Sample.config "memory" EmptyString token)
    = ([Api.EOpen Api.Memory ∅;
        Api.EPrint "Start server, listen on http://0.0.0.0:8080";
        Api.EListen "0.0.0.0:8080" false],
       Some (Sample.server (Sample.config "memory" EmptyString token))).
Proof.
  unfold Api.Serve, Sample.server; cbn [Api.storage Api.options Sample.config
    Api.verbose Api.media Api.tls Api.gzip Api.token Api.port].
  rewrite routers_built, decorators_built. reflexivity.
Qed.

(** ** Dispatch of the router chain *)

Section Dispatch.

Import Api.

Variable env : Env.
Variable name : string.
Variable h : Handler.

Local Abbreviation chain := (Api.chain env name h).

Lemma chain_status :
  Router.tryInOrder (unescape env) chain "GET" "/hawkular/metrics/status"
    = Some (GetStatus name, ∅).
Proof. reflexivity. Qed.

Lemma core_status (media : string) (r : Request) (s : World) :
  Method r = "GET" -> URLPath r = "/hawkular/metrics/status" ->
  core env media chain r s = GetStatus name r ∅ s.
Proof.
  intros Hm Hp. unfold core. rewrite Append_tryInOrder, Hm, Hp, chain_status.
  reflexivity.
Qed.

End Dispatch.

(** C7: the core handler of [Serve] is the chain gauges, counters,
    availability, root, tried in that order; the first router that
    reports a match dispatches its handler, and when none matches the
    request goes to the fallback, the static file decorator around the
    bad-request handler. *)
Theorem C7_core_tries_routers_in_order :
  forall (env : Api.Env) (name : string) (h : Api.Handler),
  exists g c a r0 : Router.Router,
    Api.routers env name h = Some [g; c; a; r0] /\
    Router.Prefix g = "/hawkular/metrics/gauges/" /\
    Router.Prefix c = "/hawkular/metrics/counters/" /\
    Router.Prefix a = "/hawkular/metrics/availability/" /\
    Router.Prefix r0 = "/hawkular/metrics/" /\
    forall (media : string) (r : Request) (s : World),
      Api.core env media [g; c; a; r0] r s =
        match Router.tryInOrder (Api.unescape env) [g; c; a; r0]
                                (Method r) (URLPath r) with
        | Some (hd, argv) => hd r argv s
        | None =>
            Middleware.FileServeDecorator media Middleware.BadRequestHandler r s
        end.
Proof.
  intros env name h.
  exists (Api.built (Api.rGauges env h)), (Api.built (Api.rCounters env h)),
         (Api.built (Api.rAvailability env h)), (Api.built (Api.rRoot env name h)).
  split; [apply routers_built |].
  repeat (split; [reflexivity |]).
  intros media r s. unfold Api.core. apply Append_tryInOrder.
Qed.

(** ** The status handler *)

Lemma GetStatus_writes (name : string) (r : Request)
      (argv : gmap string string) (s : World) :
  fresh s ->
  status (resp (Api.GetStatus name r argv s)) = 200 /\
  body (resp (Api.GetStatus name r argv s))
    = resTemplate "0.21.0" "0.22.1" name +:+ nl.
Proof.
  intros F. exact (first_write 200 (resTemplate "0.21.0" "0.22.1" name +:+ nl) s F).
Qed.

Lemma GetStatus010_writes (name : string) (r : Request)
      (argv : gmap string string) (s : World) :
  fresh s ->
  status (resp (Main010.GetStatus name r argv s)) = 200 /\
  body (resp (Main010.GetStatus name r argv s))
    = resTemplate "0.21.0" "0.10.2" name +:+ nl.
Proof.
  intros F. exact (first_write 200 (resTemplate "0.21.0" "0.10.2" name +:+ nl) s F).
Qed.

(** The status path passes the authentication stage untouched. *)
Lemma authOf_status (token : string) (next : Handler) (r : Request) (s : World) :
  URLPath r = "/hawkular/metrics/status" ->
  Api.authOf token next r s = next r s.
Proof.
  intros Hp. unfold Api.authOf, Middleware.AuthDecorator.
  rewrite statusPattern_compiles. cbn. rewrite Hp. reflexivity.
Qed.

Lemma GetStatus_spelled (name : string) (r : Request)
      (argv : gmap string string) (s : World) :
  fresh s ->
  status (resp (Api.GetStatus name r argv s)) = 200 /\
  body (resp (Api.GetStatus name r argv s))
    = "{" +:+ dq +:+ "MetricsService" +:+ dq +:+ ":" +:+ dq +:+ "STARTED" +:+ dq
          +:+ "," +:+ dq +:+ "Implementation-Version" +:+ dq +:+ ":"
          +:+ dq +:+ "0.21.0" +:+ dq
          +:+ "," +:+ dq +:+ "MohawkVersion" +:+ dq +:+ ":" +:+ dq +:+ "0.22.1" +:+ dq
          +:+ "," +:+ dq +:+ "MohawkBackend" +:+ dq +:+ ":" +:+ dq +:+ name +:+ dq
          +:+ "}" +:+ nl.
Proof.
  intros F. destruct (GetStatus_writes name r argv s F) as [Hs Hb].
  split; [exact Hs |]. rewrite Hb. apply resTemplate_spelled.
Qed.

(** C6: a GET request for the status path is dispatched to [GetStatus],
    which on an untouched response writes status 200 and the document
    {"MetricsService":"STARTED","Implementation-Version":"0.21.0",
    "MohawkVersion":"0.22.1","MohawkBackend":"<name>"} on one line,
    followed by a newline, where <name> is the [Name()] of the storage
    that [Serve] selected. Without the gzip stages this is also the
    answer of the whole server. In the statement [q] is the double quote
    and [n] the newline. *)
Theorem C6_status_document :
  forall (env : Api.Env) (cfg : Api.Config) (es : list Api.Event) (srv : Api.Server),
    Api.Serve env cfg = (es, Some srv) ->
    let q := String "034"%char EmptyString in
    let n := String "010"%char EmptyString in
    let document (name : string) :=
      "{" +:+ q +:+ "MetricsService" +:+ q +:+ ":" +:+ q +:+ "STARTED" +:+ q
          +:+ "," +:+ q +:+ "Implementation-Version" +:+ q +:+ ":"
          +:+ q +:+ "0.21.0" +:+ q
          +:+ "," +:+ q +:+ "MohawkVersion" +:+ q +:+ ":" +:+ q +:+ "0.22.1" +:+ q
          +:+ "," +:+ q +:+ "MohawkBackend" +:+ q +:+ ":" +:+ q +:+ name +:+ q
          +:+ "}" +:+ n in
    exists db : Api.Backend,
      Api.selectBackend (Api.storage cfg) = Some db /\
      (forall (r : Request) (argv : gmap string string) (s : World),
          fresh s ->
          status (resp (Api.GetStatus (Api.Name env db) r argv s)) = 200 /\
          body (resp (Api.GetStatus (Api.Name env db) r argv s))
            = document (Api.Name env db)) /\
      (forall (rs : list Router.Router) (r : Request) (s : World),
          Api.routers env (Api.Name env db)
                      (Api.mkHandler (Api.verbose cfg) db) = Some rs ->
          Method r = "GET" -> URLPath r = "/hawkular/metrics/status" ->
          Api.core env (Api.media cfg) rs r s
            = Api.GetStatus (Api.Name env db) r ∅ s) /\
      (Api.gzip cfg = false ->
       forall (r : Request) (s : World),
          Method r = "GET" -> URLPath r = "/hawkular/metrics/status" ->
          fresh s ->
          status (resp (Api.SrvHandler srv r s)) = 200 /\
          body (resp (Api.SrvHandler srv r s)) = document (Api.Name env db)).
Proof.
  intros env cfg es srv HS q n document.
  destruct (Serve_running env cfg es srv HS) as (db & opts & Hdb & _ & Hsrv).
  exists db. split; [exact Hdb |].
  split; [intros r argv s F; exact (GetStatus_spelled _ r argv s F) |].
  split.
  - intros rs r s Hrs Hm Hp. rewrite routers_built in Hrs.
    injection Hrs as <-. apply core_status; assumption.
  - intros Hgz r s Hm Hp F.
    rewrite (Hsrv _ _ (routers_built env _ _) (decorators_built env _ _)), Hgz.
    assert (G : forall s', fresh s' ->
                status (resp (Api.core env (Api.media cfg)
                   (Api.chain env (Api.Name env db) (Api.mkHandler (Api.verbose cfg) db))
                   r s')) = 200 /\
                body (resp (Api.core env (Api.media cfg)
                   (Api.chain env (Api.Name env db) (Api.mkHandler (Api.verbose cfg) db))
                   r s'))
                  = document (Api.Name env db)).
    { intros s' F'. rewrite (core_status env _ _ _ r s' Hm Hp).
      exact (GetStatus_spelled _ r ∅ s' F'). }
    destruct (negb (String.eqb (Api.token cfg) EmptyString));
      unfold Middleware.Append; cbn [fold_right foldr app];
      unfold Middleware.LoggingDecorator, Middleware.DefaultHeadersDecorator;
      [rewrite (authOf_status _ _ _ _ Hp) |];
      apply G, fresh_headers, fresh_logPrintf, F.
Qed.

Lemma C6_status_document_witness :
  status (resp (Api.SrvHandler
                  (Sample.server (Sample.config "memory" EmptyString "secret"))
                  Sample.statusRequest Sample.world)) = 200 /\
  body (resp (Api.SrvHandler
                (Sample.server (Sample.config "memory" EmptyString "secret"))
                Sample.statusRequest Sample.world))
    = "{" +:+ String "034"%char "MetricsService" +:+ String "034"%char ":"
          +:+ String "034"%char "STARTED" +:+ String "034"%char ","
          +:+ String "034"%char "Implementation-Version" +:+ String "034"%char ":"
          +:+ String "034"%char "0.21.0" +:+ String "034"%char ","
          +:+ String "034"%char "MohawkVersion" +:+ String "034"%char ":"
          +:+ String "034"%char "0.22.1" +:+ String "034"%char ","
          +:+ String "034"%char "MohawkBackend" +:+ String "034"%char ":"
          +:+ String "034"%char "Backend-Memory" +:+ String "034"%char "}"
          +:+ String "010"%char EmptyString.
Proof.
  destruct (C6_status_document Sample.env
              (Sample.config "memory" EmptyString "secret") _ _
              (sample_serve "secret")) as (db & Hdb & _ & _ & Hall).
  injection Hdb as <-.
  apply (Hall eq_refl Sample.statusRequest Sample.world eq_refl eq_refl fresh_sample).
Defined.

(** ** The registered routes *)

Lemma registered_list (env : Api.Env) (name : string) (h : Api.Handler) :
  Api.registered env name h =
    map (fun mp => (mp.1, Section6.under mp.2))
      [ ("GET", "gauges/:id/raw"); ("GET", "gauges/:id/stats");
        ("POST", "gauges/raw"); ("POST", "gauges/raw/query");
        ("PUT", "gauges/tags"); ("PUT", "gauges/:id/tags");
        ("DELETE", "gauges/:id/raw"); ("DELETE", "gauges/:id/tags/:tags");
        ("GET", "gauges/:id/data"); ("POST", "gauges/data");
        ("POST", "gauges/stats/query");
        ("GET", "counters/:id/raw"); ("GET", "counters/:id/stats");
        ("POST", "counters/raw"); ("POST", "counters/raw/query");
        ("PUT", "counters/:id/tags");
        ("GET", "counters/:id/data"); ("POST", "counters/data");
        ("POST", "counters/stats/query");
        ("GET", "availability/:id/raw"); ("GET", "availability/:id/stats");
        ("GET", "status"); ("GET", "tenants"); ("GET", "metrics") ].
Proof. reflexivity. Qed.

Lemma memRoute_In (x : string * string) (l : list (string * string)) :
  Section6.memRoute x l = true <-> In x l.
Proof.
  unfold Section6.memRoute. rewrite existsb_exists. split.
  - intros (y & Hy & E). apply andb_prop in E as [E1 E2].
    apply String.eqb_eq in E1, E2. destruct x, y; cbn in *; subst. exact Hy.
  - intros H. exists x. split; [exact H |]. rewrite !String.eqb_refl. reflexivity.
Qed.

(** Two lists of routes with the same members, checked by evaluation. *)
Lemma same_routes (l1 l2 : list (string * string)) :
  forallb (fun x => Section6.memRoute x l2) l1 = true ->
  forallb (fun x => Section6.memRoute x l1) l2 = true ->
  forall x, In x l1 <-> In x l2.
Proof.
  rewrite !forallb_forall. intros H1 H2 x. split; intros H.
  - apply memRoute_In, H1, H.
  - apply memRoute_In, H2, H.
Qed.

(** The registered set is not the table of section 6: the deprecated
    route GET gauges/:id/data is registered and is no row of the table. *)
Lemma C2_exact_table_refuted :
  ~ (forall (env : Api.Env) (name : string) (h : Api.Handler) (x : string * string),
        In x (Api.registered env name h) <-> In x Section6.restTable).
Proof.
  intros H.
  destruct (H Sample.env "Backend-Memory" Sample.handler
              ("GET", "/hawkular/metrics/gauges/:id/data")) as [H1 _].
  assert (R : In ("GET", "/hawkular/metrics/gauges/:id/data")
                 (Api.registered Sample.env "Backend-Memory" Sample.handler)).
  { apply memRoute_In. reflexivity. }
  apply H1, memRoute_In in R. discriminate R.
Qed.

(** C2 (amended): the registered routes are the rows of the REST table
    of section 6 together with the six deprecated routes of gauges and
    counters, each registered once. Among them only gauges has PUT tags,
    DELETE :id/raw and DELETE :id/tags/:tags, and availability has GET
    routes only. *)
Theorem C2_route_table :
  forall (env : Api.Env) (name : string) (h : Api.Handler),
    (forall x, In x (Api.registered env name h) <->
               In x Section6.restTable \/ In x Section6.deprecatedTable) /\
    NoDup (Api.registered env name h) /\
    (forall x, In x Section6.restTable -> ~ In x Section6.deprecatedTable) /\
    (let g := Api.built (Api.rGauges env h) in
     let c := Api.built (Api.rCounters env h) in
     let a := Api.built (Api.rAvailability env h) in
     let r0 := Api.built (Api.rRoot env name h) in
     Api.routers env name h = Some [g; c; a; r0] /\
     (Section6.has g "PUT" "tags" = true /\
      Section6.has g "DELETE" ":id/raw" = true /\
      Section6.has g "DELETE" ":id/tags/:tags" = true) /\
     (forall rt, In rt [c; a; r0] ->
        Section6.has rt "PUT" "tags" = false /\
        Section6.has rt "DELETE" ":id/raw" = false /\
        Section6.has rt "DELETE" ":id/tags/:tags" = false) /\
     (forall x, In x (Router.Routes a) -> Router.method x = "GET")).
Proof.
  intros env name h. split; [| split; [| split]].
  - intros x. rewrite <- in_app_iff. revert x. rewrite registered_list.
    apply same_routes; reflexivity.
  - rewrite registered_list. apply (bool_decide_unpack _). vm_compute. reflexivity.
  - intros x Hx Hd. apply memRoute_In in Hd.
    assert (D : forallb (fun y => negb (Section6.memRoute y Section6.deprecatedTable))
                        Section6.restTable = true) by reflexivity.
    rewrite forallb_forall in D. specialize (D x Hx).
    rewrite Hd in D. discriminate D.
  - cbv zeta. split; [apply routers_built |].
    split; [repeat split |]. split.
    + intros rt [<- | [<- | [<- | []]]]; repeat split.
    + intros x [<- | [<- | []]]; reflexivity.
Qed.

(** ** The deprecated routes *)

Section Deprecated.

Import Api.

Variable env : Env.
Variable name : string.
Variable h : Handler.

Local Abbreviation u := (unescape env).
Local Abbreviation g := (built (rGauges env h)).
Local Abbreviation c := (built (rCounters env h)).

(** Below its prefix a router only looks at the rest of the path. *)
Lemma Match_below_prefix (rt : Router.Router) (m rest : string) :
  Router.Match u rt m (Router.Prefix rt +:+ rest)
    = Router.firstMatch u m (Router.split rest) (Router.Routes rt).
Proof. unfold Router.Match. rewrite cutPrefix_app. reflexivity. Qed.

Local Abbreviation idArg := (Api.idArg env).

Lemma gauges_get (id leaf : string) :
  Router.isSegment id = true -> In leaf ["raw"; "stats"; "data"] ->
  Router.Match u g "GET" ("/hawkular/metrics/gauges/" +:+ id +:+ String "/" leaf)
    = Some (GetData env h, idArg id).
Proof.
  intros Hid Hl.
  change "/hawkular/metrics/gauges/" with (Router.Prefix g).
  rewrite Match_below_prefix, (split_segment id leaf Hid).
  destruct Hl as [<- | [<- | [<- | []]]]; reflexivity.
Qed.

Lemma counters_get (id leaf : string) :
  Router.isSegment id = true -> In leaf ["raw"; "stats"; "data"] ->
  Router.Match u c "GET" ("/hawkular/metrics/counters/" +:+ id +:+ String "/" leaf)
    = Some (GetData env h, idArg id).
Proof.
  intros Hid Hl.
  change "/hawkular/metrics/counters/" with (Router.Prefix c).
  rewrite Match_below_prefix, (split_segment id leaf Hid).
  destruct Hl as [<- | [<- | [<- | []]]]; reflexivity.
Qed.

(** A path below the counters prefix is not below the gauges prefix. *)
Lemma gauges_skip_counters (m rest : string) :
  Router.Match u g m ("/hawkular/metrics/counters/" +:+ rest) = None.
Proof. apply Match_outside_prefix. reflexivity. Qed.

(** What the chain does with the GET routes of a metric id. *)
Lemma chain_get (kind id leaf : string) :
  In kind ["gauges"; "counters"] ->
  Router.isSegment id = true -> In leaf ["raw"; "stats"; "data"] ->
  Router.tryInOrder u (chain env name h) "GET"
      (Section6.under (kind +:+ "/") +:+ id +:+ String "/" leaf)
    = Some (GetData env h, idArg id).
Proof.
  intros [<- | [<- | []]] Hid Hl; unfold chain; cbn [Router.tryInOrder].
  - change (Section6.under ("gauges" +:+ "/")) with "/hawkular/metrics/gauges/".
    rewrite (gauges_get id leaf Hid Hl). reflexivity.
  - change (Section6.under ("counters" +:+ "/")) with "/hawkular/metrics/counters/".
    rewrite gauges_skip_counters, (counters_get id leaf Hid Hl). reflexivity.
Qed.

(** What the chain does with the POST routes. *)
Lemma chain_post (kind : string) :
  In kind ["gauges"; "counters"] ->
  (forall leaf, In leaf ["raw"; "data"] ->
     Router.tryInOrder u (chain env name h) "POST"
         (Section6.under (kind +:+ "/") +:+ leaf)
       = Some (PostData env h, ∅)) /\
  (forall leaf, In leaf ["raw/query"; "stats/query"] ->
     Router.tryInOrder u (chain env name h) "POST"
         (Section6.under (kind +:+ "/") +:+ leaf)
       = Some (PostQuery env h, ∅)).
Proof.
  intros [<- | [<- | []]]; split; intros leaf [<- | [<- | []]]; reflexivity.
Qed.

End Deprecated.

(** C9: gauges and counters also register the deprecated routes
    GET :id/data, POST data and POST stats/query, and a request for one
    of them is dispatched, like the request for :id/raw, raw or raw/query,
    to the same handler with the same parameters, not to the fallback. *)
Theorem C9_deprecated_routes :
  forall (env : Api.Env) (name : string) (h : Api.Handler) (media : string)
         (kind id : string) (r : Request) (s : World),
    In kind ["gauges"; "counters"] ->
    Router.isSegment id = true ->
    (In ("GET", Section6.under (kind +:+ "/:id/data")) (Api.registered env name h) /\
     In ("POST", Section6.under (kind +:+ "/data")) (Api.registered env name h) /\
     In ("POST", Section6.under (kind +:+ "/stats/query")) (Api.registered env name h)) /\
    (Method r = "GET" ->
     forall leaf, In leaf ["data"; "raw"] ->
       URLPath r = Section6.under (kind +:+ "/") +:+ id +:+ "/" +:+ leaf ->
       Api.core env media (Api.chain env name h) r s
         = Api.GetData env h r (Api.idArg env id) s) /\
    (Method r = "POST" ->
     forall leaf, In leaf ["data"; "raw"] ->
       URLPath r = Section6.under (kind +:+ "/") +:+ leaf ->
       Api.core env media (Api.chain env name h) r s = Api.PostData env h r ∅ s) /\
    (Method r = "POST" ->
     forall leaf, In leaf ["stats/query"; "raw/query"] ->
       URLPath r = Section6.under (kind +:+ "/") +:+ leaf ->
       Api.core env media (Api.chain env name h) r s = Api.PostQuery env h r ∅ s).
Proof.
  intros env name h media kind id r s Hk Hid.
  split; [| split; [| split]].
  - rewrite <- !memRoute_In.
    destruct Hk as [<- | [<- | []]]; repeat split.
  - intros Hm leaf Hl Hp. unfold Api.core.
    rewrite Append_tryInOrder, Hm, Hp.
    change ("/" +:+ leaf) with (String "/" leaf).
    rewrite (chain_get env name h kind id leaf Hk Hid); [reflexivity |].
    destruct Hl as [<- | [<- | []]]; cbn; tauto.
  - intros Hm leaf Hl Hp. unfold Api.core.
    rewrite Append_tryInOrder, Hm, Hp.
    destruct (chain_post env name h kind Hk) as [P _].
    rewrite (P leaf); [reflexivity |].
    destruct Hl as [<- | [<- | []]]; cbn; tauto.
  - intros Hm leaf Hl Hp. unfold Api.core.
    rewrite Append_tryInOrder, Hm, Hp.
    destruct (chain_post env name h kind Hk) as [_ P].
    rewrite (P leaf); [reflexivity |].
    destruct Hl as [<- | [<- | []]]; cbn; tauto.
Qed.

Lemma C9_deprecated_routes_witness :
  In "counters" ["gauges"; "counters"] /\
  Router.isSegment "cpu" = true /\
  Api.core Sample.env "/media" (Api.chain Sample.env "Backend-Memory" Sample.handler)
      (Sample.request "GET" "/hawkular/metrics/counters/cpu/data") Sample.world
    = Api.GetData Sample.env Sample.handler
        (Sample.request "GET" "/hawkular/metrics/counters/cpu/data")
        (Api.idArg Sample.env "cpu") Sample.world.
Proof.
  assert (K : In "counters" ["gauges"; "counters"]) by (right; left; reflexivity).
  split; [exact K |]. split; [reflexivity |].
  destruct (C9_deprecated_routes Sample.env "Backend-Memory" Sample.handler "/media"
              "counters" "cpu"
              (Sample.request "GET" "/hawkular/metrics/counters/cpu/data")
              Sample.world K eq_refl) as (_ & G & _).
  apply (G eq_refl "data"); [left; reflexivity | reflexivity].
Defined.

(** ** Startup failures *)

Lemma selectBackend_None (q : string) :
  ~ In q ["sqlite"; "memory"; "mongo"; "example"] ->
  Api.selectBackend q = None.
Proof.
  intros H. unfold Api.selectBackend.
  destruct (String.eqb_spec q "sqlite") as [-> | _]; [exfalso; apply H; cbn; tauto |].
  destruct (String.eqb_spec q "memory") as [-> | _]; [exfalso; apply H; cbn; tauto |].
  destruct (String.eqb_spec q "mongo") as [-> | _]; [exfalso; apply H; cbn; tauto |].
  destruct (String.eqb_spec q "example") as [-> | _]; [exfalso; apply H; cbn; tauto |].
  reflexivity.
Qed.

Lemma selectBackend_Some (q : string) (db : Api.Backend) :
  Api.selectBackend q = Some db ->
  In q ["sqlite"; "memory"; "mongo"; "example"].
Proof.
  unfold Api.selectBackend. intros H.
  destruct (String.eqb_spec q "sqlite") as [-> | _]; [cbn; tauto |].
  destruct (String.eqb_spec q "memory") as [-> | _]; [cbn; tauto |].
  destruct (String.eqb_spec q "mongo") as [-> | _]; [cbn; tauto |].
  destruct (String.eqb_spec q "example") as [-> | _]; [cbn; tauto |].
  discriminate H.
Qed.

(** C8: when the storage name is none of sqlite, memory, mongo, example,
    or the options string does not parse as a URL query, [Serve] logs
    the cause and exits with status 1, and nothing else happens: with
    an unsupported storage name it logs "Can't find storage:" and the
    name, with a supported one (the options then being those that do
    not parse) "Can't parse opetions:" and the options; the listener is
    never started. *)
Theorem C8_startup_failure :
  forall (env : Api.Env) (cfg : Api.Config),
    ~ In (Api.storage cfg) ["sqlite"; "memory"; "mongo"; "example"] \/
    Api.ParseQuery env (Api.options cfg) = None ->
    (~ In (Api.storage cfg) ["sqlite"; "memory"; "mongo"; "example"] ->
       Api.Serve env cfg
         = ([Api.EPrint ("Can't find storage:" +:+ Api.storage cfg); Api.EExit 1],
            None)) /\
    (In (Api.storage cfg) ["sqlite"; "memory"; "mongo"; "example"] ->
       Api.Serve env cfg
         = ([Api.EPrint ("Can't parse opetions:" +:+ Api.options cfg); Api.EExit 1],
            None)) /\
    (exists msg : string,
        fst (Api.Serve env cfg) = [Api.EPrint msg; Api.EExit 1]) /\
    snd (Api.Serve env cfg) = None /\
    Api.exitedNonZero (fst (Api.Serve env cfg)) /\
    existsb Api.isListen (fst (Api.Serve env cfg)) = false.
Proof.
  intros env cfg H.
  assert (A : ~ In (Api.storage cfg) ["sqlite"; "memory"; "mongo"; "example"] ->
              Api.Serve env cfg
                = ([Api.EPrint ("Can't find storage:" +:+ Api.storage cfg);
                    Api.EExit 1], None)).
  { intros Hn. unfold Api.Serve. rewrite (selectBackend_None _ Hn). reflexivity. }
  assert (B : In (Api.storage cfg) ["sqlite"; "memory"; "mongo"; "example"] ->
              Api.Serve env cfg
                = ([Api.EPrint ("Can't parse opetions:" +:+ Api.options cfg);
                    Api.EExit 1], None)).
  { intros Hin. destruct H as [Hn | Hp]; [contradiction |].
    unfold Api.Serve.
    destruct (Api.selectBackend (Api.storage cfg)) as [db |] eqn:Hdb.
    - rewrite Hp. reflexivity.
    - exfalso. unfold Api.selectBackend in Hdb. cbn in Hin.
      destruct Hin as [E | [E | [E | [E | []]]]]; rewrite <- E in Hdb;
        discriminate Hdb. }
  split; [exact A |]. split; [exact B |].
  assert (E : exists msg, Api.Serve env cfg = ([Api.EPrint msg; Api.EExit 1], None)).
  { destruct (Api.selectBackend (Api.storage cfg)) as [db |] eqn:Hdb.
    - eexists. apply B. exact (selectBackend_Some _ _ Hdb).
    - eexists. apply A. intros Hin.
      unfold Api.selectBackend in Hdb. cbn in Hin.
      destruct Hin as [E | [E | [E | [E | []]]]]; rewrite <- E in Hdb;
        discriminate Hdb. }
  destruct E as (msg & E). rewrite E. cbn [fst snd].
  split; [exists msg; reflexivity |]. split; [reflexivity |].
  split; [| reflexivity].
  exists 1. split; [reflexivity | discriminate].
Qed.

Lemma C8_startup_failure_witness :
  Api.Serve Sample.env (Sample.config "cassandra" "a=%zz" "secret")
    = ([Api.EPrint "Can't find storage:cassandra"; Api.EExit 1], None) /\
  Api.Serve Sample.env (Sample.config "memory" "a=%zz" "secret")
    = ([Api.EPrint "Can't parse opetions:a=%zz"; Api.EExit 1], None).
Proof.
  split.
  - apply (C8_startup_failure Sample.env (Sample.config "cassandra" "a=%zz" "secret")).
    + left. cbn. intros [A | [A | [A | [A | []]]]]; discriminate A.
    + cbn. intros [A | [A | [A | [A | []]]]]; discriminate A.
  - apply (C8_startup_failure Sample.env (Sample.config "memory" "a=%zz" "secret")).
    + right. reflexivity.
    + cbn. tauto.
Defined.

(** ** Authentication *)

(** The exemption pattern matches the status path and nothing else. *)
Lemma status_pattern_matches (re : Middleware.Regexp) (path : string) :
  Middleware.Compile Api.statusPattern = Some re ->
  Middleware.MatchString re path = true <-> path = "/hawkular/metrics/status".
Proof.
  rewrite statusPattern_compiles. intros [= <-]. cbn. apply String.eqb_eq.
Qed.

(** Outside of the exemption, a request without the token is answered
    by the authentication stage itself. *)
Lemma authOf_rejects (token : string) (next : Handler) (r : Request) (s : World) :
  URLPath r <> "/hawkular/metrics/status" ->
  Middleware.validToken token r = false ->
  Api.authOf token next r s
    = Fprintf Middleware.unauthorizedBody (onResp (WriteHeader 401) s).
Proof.
  intros Hp Hv. unfold Api.authOf, Middleware.AuthDecorator.
  rewrite statusPattern_compiles. cbn.
  destruct (String.eqb_spec (URLPath r) "/hawkular/metrics/status") as [E | _];
    [contradiction |].
  cbn. rewrite Hv. reflexivity.
Qed.

(** With the token a request passes as well. *)
Lemma authOf_accepts (token : string) (next : Handler) (r : Request) (s : World) :
  Middleware.validToken token r = true ->
  Api.authOf token next r s = next r s.
Proof.
  intros Hv. unfold Api.authOf, Middleware.AuthDecorator.
  rewrite statusPattern_compiles. cbn. rewrite Hv, orb_true_r. reflexivity.
Qed.

Lemma token_nonempty (token : string) :
  token <> EmptyString -> negb (String.eqb token EmptyString) = true.
Proof.
  intros H. destruct (String.eqb_spec token EmptyString); [contradiction | reflexivity].
Qed.

(** C3: the middleware list of [Serve] has the authentication stage,
    third after logging and default headers, exactly when the token is
    not empty. With a token, a request for another path than the status
    path and without a valid token gets status 401 and the answer does
    not depend on the handler below the middlewares; a request for the
    status path passes the stage whatever it presents. With an empty
    token the list has no authentication stage. *)
Theorem C3_authentication :
  forall (env : Api.Env) (cfg : Api.Config) (es : list Api.Event) (srv : Api.Server),
    Api.Serve env cfg = (es, Some srv) ->
    exists (rs : list Router.Router) (ds : list Middleware.Decorator),
      Api.decorators env (Api.token cfg) (Api.gzip cfg) = Some ds /\
      Api.SrvHandler srv = Middleware.Append (Api.core env (Api.media cfg) rs) ds /\
      (Api.token cfg <> EmptyString ->
         Middleware.AuthDecorator (Api.token cfg) "^/hawkular/metrics/status$"
           = Some (Api.authOf (Api.token cfg)) /\
         ds = ([Middleware.LoggingDecorator;
                Middleware.DefaultHeadersDecorator (Api.defaultHeaders env);
                Api.authOf (Api.token cfg)]
               ++ (if Api.gzip cfg
                   then [Api.GzipDecodeDecorator env; Api.GzipEncodeDecorator env]
                   else []))%list /\
         (forall (r : Request) (s : World),
             URLPath r <> "/hawkular/metrics/status" ->
             Middleware.validToken (Api.token cfg) r = false ->
             fresh s ->
             status (resp (Api.SrvHandler srv r s)) = 401 /\
             forall other : Handler,
               Api.SrvHandler srv r s = Middleware.Append other ds r s) /\
         (forall (next : Handler) (r : Request) (s : World),
             URLPath r = "/hawkular/metrics/status" ->
             Api.authOf (Api.token cfg) next r s = next r s)) /\
      (Api.token cfg = EmptyString ->
         ds = ([Middleware.LoggingDecorator;
                Middleware.DefaultHeadersDecorator (Api.defaultHeaders env)]
               ++ (if Api.gzip cfg
                   then [Api.GzipDecodeDecorator env; Api.GzipEncodeDecorator env]
                   else []))%list).
Proof.
  intros env cfg es srv HS.
  destruct (Serve_running env cfg es srv HS) as (db & opts & Hdb & _ & Hsrv).
  eexists. eexists.
  split; [apply decorators_built |].
  split; [apply Hsrv; [apply routers_built | apply decorators_built] |].
  split.
  - intros Ht. rewrite (token_nonempty _ Ht).
    split; [reflexivity |]. split; [reflexivity |]. split.
    + intros r s Hp Hv F.
      rewrite (Hsrv _ _ (routers_built env _ _) (decorators_built env _ _)).
      rewrite (token_nonempty _ Ht).
      assert (R : forall other : Handler,
                 Middleware.Append other
                   ([Middleware.LoggingDecorator;
                     Middleware.DefaultHeadersDecorator (Api.defaultHeaders env)]
                    ++ [Api.authOf (Api.token cfg)]
                    ++ (if Api.gzip cfg
                        then [Api.GzipDecodeDecorator env; Api.GzipEncodeDecorator env]
                        else []))%list r s
                 = Fprintf Middleware.unauthorizedBody
                     (onResp (WriteHeader 401)
                        (onResp (fun w => foldl (fun w kv => HeaderSet kv.1 kv.2 w) w
                                                (Api.defaultHeaders env))
                                (logPrintf (accessLine r) s)))).
      { intros other. unfold Middleware.Append. cbn [fold_right foldr app].
        unfold Middleware.LoggingDecorator, Middleware.DefaultHeadersDecorator.
        apply authOf_rejects; assumption. }
      split.
      * rewrite R. apply first_write, fresh_headers, fresh_logPrintf, F.
      * intros other. rewrite R. symmetry. apply R.
    + intros next r s Hp. apply authOf_status, Hp.
  - intros Ht. rewrite Ht. reflexivity.
Qed.

Lemma C3_authentication_witness :
  status (resp (Api.SrvHandler
                  (Sample.server (Sample.config "memory" EmptyString "secret"))
                  (Sample.request "GET" "/hawkular/metrics/tenants")
                  Sample.world)) = 401.
Proof.
  destruct (C3_authentication Sample.env
              (Sample.config "memory" EmptyString "secret") _ _
              (sample_serve "secret")) as (rs & ds & _ & _ & Hauth & _).
  assert (T : "secret" <> EmptyString) by discriminate.
  destruct (Hauth T) as (_ & _ & Hreject & _).
  apply (Hreject (Sample.request "GET" "/hawkular/metrics/tenants") Sample.world).
  - discriminate.
  - reflexivity.
  - exact fresh_sample.
Defined.

(** ** Storage: last write wins *)

Section StorageFacts.

Import Storage.
Local Open Scope Z_scope.

Context {V : Type}.

Implicit Types (p q : DataPoint V) (l : list (DataPoint V)) (st : Store V).

Lemma insertPoint_above (x : Z) p l :
  x < p.1 -> Forall (fun q => x < q.1) l ->
  Forall (fun q => x < q.1) (insertPoint p l).
Proof.
  intros Hx. induction 1 as [| q l Hq Hl IH]; cbn.
  - repeat constructor. exact Hx.
  - destruct (p.1 <? q.1); [| destruct (p.1 =? q.1)];
      repeat constructor; assumption.
Qed.

Lemma insertPoint_ascending p l :
  ascending l -> ascending (insertPoint p l).
Proof.
  induction l as [| q l IH]; cbn; intros H.
  - split; constructor.
  - destruct H as [Hq Hl].
    destruct (Z.ltb_spec p.1 q.1) as [Hlt | Hge]; cbn.
    + split; [| split; assumption].
      constructor; [exact Hlt |].
      eapply Forall_impl; [exact Hq |]. cbn. intros r Hr. lia.
    + destruct (Z.eqb_spec p.1 q.1) as [He | Hne]; cbn.
      * split; [rewrite He; exact Hq | exact Hl].
      * split; [apply insertPoint_above; [lia | exact Hq] | apply IH, Hl].
Qed.

Lemma nothing_at_below (t : Z) l :
  Forall (fun q => t < q.1) l -> List.filter (atTime t) l = [].
Proof.
  induction 1 as [| q l Hq Hl IH]; cbn; [reflexivity |].
  unfold atTime at 1. destruct (Z.eqb_spec q.1 t); [lia | exact IH].
Qed.

Lemma filter_atTime_cons (t : Z) p l :
  List.filter (atTime t) (p :: l)
    = if p.1 =? t then p :: List.filter (atTime t) l
      else List.filter (atTime t) l.
Proof. reflexivity. Qed.

(** After an insertion the inserted point is the only one at its time. *)
Lemma insertPoint_same p l :
  ascending l -> List.filter (atTime p.1) (insertPoint p l) = [p].
Proof.
  induction l as [| q l IH]; intros H.
  - cbn. unfold atTime. rewrite Z.eqb_refl. reflexivity.
  - destruct H as [Hq Hl]. cbn [insertPoint].
    destruct (Z.ltb_spec p.1 q.1) as [Hlt | Hge].
    + rewrite (filter_atTime_cons p.1 p (q :: l)), Z.eqb_refl. f_equal.
      apply nothing_at_below. constructor; [exact Hlt |].
      eapply Forall_impl; [exact Hq |]. cbn. intros r Hr. lia.
    + destruct (Z.eqb_spec p.1 q.1) as [He | Hne].
      * rewrite (filter_atTime_cons p.1 p l), Z.eqb_refl. f_equal.
        apply nothing_at_below. rewrite He. exact Hq.
      * rewrite (filter_atTime_cons p.1 q (insertPoint p l)).
        destruct (Z.eqb_spec q.1 p.1); [lia |]. apply IH, Hl.
Qed.

(** The points at other times are left as they are. *)
Lemma insertPoint_other (t : Z) p l :
  p.1 <> t -> List.filter (atTime t) (insertPoint p l) = List.filter (atTime t) l.
Proof.
  intros Hne. induction l as [| q l IH].
  - cbn. unfold atTime. destruct (Z.eqb_spec p.1 t); [contradiction | reflexivity].
  - cbn [insertPoint].
    destruct (Z.ltb_spec p.1 q.1) as [Hlt | Hge].
    + rewrite (filter_atTime_cons t p (q :: l)).
      destruct (Z.eqb_spec p.1 t); [contradiction | reflexivity].
    + destruct (Z.eqb_spec p.1 q.1) as [He | Hq].
      * rewrite (filter_atTime_cons t p l), (filter_atTime_cons t q l).
        destruct (Z.eqb_spec p.1 t); [contradiction |].
        destruct (Z.eqb_spec q.1 t); [congruence | reflexivity].
      * rewrite (filter_atTime_cons t q (insertPoint p l)),
                (filter_atTime_cons t q l), IH. reflexivity.
Qed.

Lemma lastAt_snoc (t : Z) (pts : list (DataPoint V)) p :
  lastAt t (pts ++ [p]) = if p.1 =? t then Some p.2 else lastAt t pts.
Proof. unfold lastAt. rewrite foldl_app. reflexivity. Qed.

(** Storing a batch of points on an ascending list. *)
Lemma store_points (t : Z) (pts : list (DataPoint V)) l :
  ascending l ->
  ascending (foldl (fun l p => insertPoint p l) l pts) /\
  List.filter (atTime t) (foldl (fun l p => insertPoint p l) l pts)
    = match lastAt t pts with
      | Some v => [(t, v)]
      | None => List.filter (atTime t) l
      end.
Proof.
  intros Hl. induction pts as [| p pts IH] using rev_ind.
  - split; [exact Hl | reflexivity].
  - destruct IH as [Ha Hf]. rewrite foldl_app, lastAt_snoc. cbn [foldl].
    split; [apply insertPoint_ascending, Ha |].
    destruct (Z.eqb_spec p.1 t) as [<- | Hne].
    + rewrite (insertPoint_same p _ Ha). destruct p; reflexivity.
    + rewrite (insertPoint_other t p _ Hne). exact Hf.
Qed.

Lemma pointsOf_Write (tenant metric : string) (pts : list (DataPoint V)) st
      (tenant' metric' : string) :
  pointsOf (Write tenant metric pts st) tenant' metric'
    = if String.eqb tenant tenant' && String.eqb metric metric'
      then foldl (fun l p => insertPoint p l) (pointsOf st tenant metric) pts
      else pointsOf st tenant' metric'.
Proof.
  unfold Write, pointsOf at 1. unfold Store in st |- *.
  destruct (String.eqb_spec tenant tenant') as [-> | Ht];
    [destruct (String.eqb_spec metric metric') as [-> | Hm] |]; cbn.
  - rewrite lookup_insert_eq. reflexivity.
  - rewrite lookup_insert_ne by congruence. reflexivity.
  - rewrite lookup_insert_ne by congruence. reflexivity.
Qed.

(** The points of a metric after a sequence of calls: the points the
    calls wrote to it, stored one after the other. *)
Lemma pointsOf_runWrites (calls : list (WriteCall V)) st (tenant metric : string) :
  pointsOf (runWrites calls st) tenant metric
    = foldl (fun l p => insertPoint p l) (pointsOf st tenant metric)
            (writtenTo tenant metric calls).
Proof.
  revert st. induction calls as [| c calls IH]; intros st; [reflexivity |].
  unfold runWrites, writtenTo in *. cbn [foldl map concat].
  rewrite IH, foldl_app, pointsOf_Write.
  destruct (String.eqb_spec (wTenant c) tenant) as [-> | Ht];
    [destruct (String.eqb_spec (wMetric c) metric) as [-> | Hm] |];
    reflexivity.
Qed.

Lemma storeOK_empty : storeOK (∅ : Store V).
Proof.
  intros tenant metric. unfold pointsOf, Store. rewrite lookup_empty. exact I.
Qed.

(** Writing keeps every metric ascending. *)
Lemma storeOK_runWrites (calls : list (WriteCall V)) st :
  storeOK st -> storeOK (runWrites calls st).
Proof.
  intros H tenant metric. rewrite pointsOf_runWrites.
  apply (store_points 0), H.
Qed.

Lemma ascending_filter (f : DataPoint V -> bool) l :
  ascending l -> ascending (List.filter f l).
Proof.
  induction l as [| q l IH]; cbn; [trivial |]. intros [Hq Hl].
  destruct (f q); cbn; [split |]; try apply IH, Hl.
  clear IH Hl. induction Hq as [| r l Hr Hq IH]; cbn; [constructor |].
  destruct (f r); [constructor |]; assumption.
Qed.

Lemma atTime_inRange (t start stop : Z) l :
  start <= t < stop ->
  List.filter (atTime t) (List.filter (inRange start stop) l)
    = List.filter (atTime t) l.
Proof.
  intros Ht. induction l as [| q l IH]; cbn; [reflexivity |].
  unfold inRange at 1, atTime at 2.
  destruct (Z.eqb_spec q.1 t) as [E | N].
  - destruct (Z.leb_spec start q.1); [| lia].
    destruct (Z.ltb_spec q.1 stop); [| lia].
    cbn. unfold atTime at 1. rewrite E, Z.eqb_refl, IH. reflexivity.
  - destruct ((start <=? q.1) && (q.1 <? stop)); cbn; [| exact IH].
    unfold atTime at 1. destruct (Z.eqb_spec q.1 t); [contradiction | exact IH].
Qed.

End StorageFacts.

(** C4: after any sequence of Write calls on a store, a raw query of a
    metric over a range that contains T returns exactly one point at T,
    and its value is the one of the last point that the calls wrote to
    that metric at T; the result is in ascending timestamp order without
    repeated timestamps. *)
Theorem C4_last_write_wins :
  forall (V : Type) (st : Storage.Store V) (calls : list (Storage.WriteCall V))
         (tenant metric : string) (T start stop : Z) (v : V),
    Storage.storeOK st ->
    Storage.lastAt T (Storage.writtenTo tenant metric calls) = Some v ->
    (start <= T < stop)%Z ->
    List.filter (Storage.atTime T)
        (Storage.QueryRaw tenant metric start stop (Storage.runWrites calls st))
      = [(T, v)] /\
    Storage.ascending
        (Storage.QueryRaw tenant metric start stop (Storage.runWrites calls st)).
Proof.
  intros V st calls tenant metric T start stop v Hst Hlast Hr.
  unfold Storage.QueryRaw. rewrite pointsOf_runWrites.
  destruct (store_points T (Storage.writtenTo tenant metric calls)
              (Storage.pointsOf st tenant metric) (Hst tenant metric)) as [Ha Hf].
  split.
  - rewrite (atTime_inRange T start stop _ Hr), Hf, Hlast. reflexivity.
  - apply ascending_filter, Ha.
Qed.

Lemma C4_last_write_wins_witness :
  List.filter (Storage.atTime 5)
      (Storage.QueryRaw "tenant" "cpu" 0 10 (Storage.runWrites Sample.writes ∅))
    = [(5%Z, 4%Q)] /\
  Storage.ascending
      (Storage.QueryRaw "tenant" "cpu" 0 10 (Storage.runWrites Sample.writes ∅)).
Proof.
  apply (C4_last_write_wins Q ∅ Sample.writes "tenant" "cpu" 5 0 10 4%Q).
  - exact storeOK_empty.
  - reflexivity.
  - lia.
Defined.

(** ** The alert engine *)

Section AlertFacts.

Import Alerts.

Lemma tick_name (a : Alert) (o : option Q) : name (fst (tick a o)) = name a.
Proof.
  unfold tick. destruct o as [v |]; [| reflexivity].
  destruct (holds (operator a) v (threshold a)), (state a); reflexivity.
Qed.

(** A tick emits a fire exactly on the step from OK to FIRING, a
    resolve exactly on the step from FIRING to OK, and nothing else. *)
Lemma tick_edges (a : Alert) (o : option Q) :
  (snd (tick a o) = Some (Fire (name a)) <->
     state a = OK /\ state (fst (tick a o)) = FIRING) /\
  (snd (tick a o) = Some (Resolve (name a)) <->
     state a = FIRING /\ state (fst (tick a o)) = OK) /\
  (snd (tick a o) = None <-> state (fst (tick a o)) = state a) /\
  (forall n, snd (tick a o) = Some n -> n = Fire (name a) \/ n = Resolve (name a)).
Proof.
  unfold tick. destruct o as [v |].
  - destruct (holds (operator a) v (threshold a)), (state a) eqn:Hs; cbn;
      rewrite ?Hs; repeat split; intros; try discriminate; try tauto;
      try (destruct H; discriminate); try (injection H as <-; tauto).
  - cbn. repeat split; intros; try discriminate; try tauto;
      destruct H as [H1 H2]; rewrite H1 in H2; discriminate.
Qed.

(** Fires and resolves take turns in every run. *)
Lemma run_alternating (obs : list (option Q)) (a : Alert) :
  alternating (state a) (emitted (snd (run a obs))) = true.
Proof.
  revert a. induction obs as [| o obs IH]; intros a; [destruct (state a); reflexivity |].
  cbn [run]. destruct (tick a o) as [a1 n] eqn:Ht.
  specialize (IH a1). destruct (run a1 obs) as [a2 ns]. cbn [snd] in *.
  unfold tick in Ht. destruct o as [v |].
  - destruct (holds (operator a) v (threshold a)), (state a) eqn:Hs;
      injection Ht as <- <-; cbn in *; rewrite ?Hs in *; exact IH.
  - injection Ht as <- <-. exact IH.
Qed.

Lemma alternating_no_two_fires (st : State) (pre post : list Notification)
      (n1 n2 : string) :
  alternating st (pre ++ Fire n1 :: Fire n2 :: post) = false.
Proof.
  revert st. induction pre as [| x pre IH]; intros st; cbn.
  - destruct st; reflexivity.
  - destruct x, st; try reflexivity; apply IH.
Qed.

End AlertFacts.

(** C5: a tick emits a fire exactly when the rule goes from OK to FIRING
    and a resolve exactly when it goes from FIRING to OK; in every run
    fires and resolves take turns, so no two fires follow one another
    without a resolve between them; and for threshold 90 with operator >
    the values 80, 95, 85 give nothing, then one fire, then one
    resolve. *)
Theorem C5_edge_triggered :
  (forall (a : Alerts.Alert) (o : option Q),
      (snd (Alerts.tick a o) = Some (Alerts.Fire (Alerts.name a)) <->
         Alerts.state a = Alerts.OK /\
         Alerts.state (fst (Alerts.tick a o)) = Alerts.FIRING) /\
      (snd (Alerts.tick a o) = Some (Alerts.Resolve (Alerts.name a)) <->
         Alerts.state a = Alerts.FIRING /\
         Alerts.state (fst (Alerts.tick a o)) = Alerts.OK) /\
      (snd (Alerts.tick a o) = None <->
         Alerts.state (fst (Alerts.tick a o)) = Alerts.state a)) /\
  (forall (a : Alerts.Alert) (obs : list (option Q)),
      Alerts.alternating (Alerts.state a)
        (Alerts.emitted (snd (Alerts.run a obs))) = true /\
      forall (pre post : list Alerts.Notification) (n1 n2 : string),
        Alerts.emitted (snd (Alerts.run a obs))
          <> (pre ++ Alerts.Fire n1 :: Alerts.Fire n2 :: post)%list) /\
  (forall (name metric : string) (interval : Z),
      snd (Alerts.run (Alerts.mkAlert name metric 90%Q Alerts.Gt interval Alerts.OK)
                      [Some 80%Q; Some 95%Q; Some 85%Q])
        = [None; Some (Alerts.Fire name); Some (Alerts.Resolve name)]).
Proof.
  split; [| split].
  - intros a o. destruct (tick_edges a o) as (A & B & C & _). repeat split; tauto.
  - intros a obs. split; [apply run_alternating |].
    intros pre post n1 n2 E.
    pose proof (run_alternating obs a) as H. rewrite E in H.
    rewrite alternating_no_two_fires in H. discriminate H.
  - intros name metric interval. reflexivity.
Qed.

(** ** Requests that no router takes *)

(** Through the whole server, without the gzip stages: a request that
    passes authentication, that no router matches and for which no
    media file exists gets the answer of the bad-request handler. *)
Lemma unmatched_request (env : Api.Env) (cfg : Api.Config) (es : list Api.Event)
      (srv : Api.Server) (r : Request) (s : World) :
  Api.Serve env cfg = (es, Some srv) ->
  Api.gzip cfg = false ->
  Api.token cfg = EmptyString \/ Middleware.validToken (Api.token cfg) r = true ->
  (forall db, Router.tryInOrder (Api.unescape env)
                (Api.chain env (Api.Name env db) (Api.mkHandler (Api.verbose cfg) db))
                (Method r) (URLPath r) = None) ->
  files s !! (Api.media cfg +:+ URLPath r) = None ->
  fresh s ->
  (Method r = "OPTIONS" ->
     status (resp (Api.SrvHandler srv r s)) = 200 /\
     body (resp (Api.SrvHandler srv r s)) = Middleware.capabilityBody) /\
  (Method r <> "OPTIONS" ->
     status (resp (Api.SrvHandler srv r s)) = 404 /\
     body (resp (Api.SrvHandler srv r s)) = Middleware.notFoundBody).
Proof.
  intros HS Hgz Hauth Hnone Hfile F.
  destruct (Serve_running env cfg es srv HS) as (db & opts & _ & _ & Hsrv).
  rewrite (Hsrv _ _ (routers_built env _ _) (decorators_built env _ _)), Hgz.
  set (s2 := onResp (fun w => foldl (fun w kv => HeaderSet kv.1 kv.2 w) w
                                    (Api.defaultHeaders env))
                    (logPrintf (accessLine r) s)).
  assert (F2 : fresh s2) by apply fresh_headers, fresh_logPrintf, F.
  assert (C : Api.core env (Api.media cfg)
                (Api.chain env (Api.Name env db) (Api.mkHandler (Api.verbose cfg) db))
                r s2
              = Middleware.ServeHTTP (Middleware.mkBadRequest false) r s2).
  { unfold Api.core. rewrite Append_tryInOrder, Hnone.
    unfold Api.fallback, Middleware.FileServeDecorator, Middleware.BadRequestHandler.
    change (files s2) with (files s). rewrite Hfile.
    destruct (String.eqb (Method r) "GET"); reflexivity. }
  assert (G : Middleware.Append
                (Api.core env (Api.media cfg)
                   (Api.chain env (Api.Name env db)
                              (Api.mkHandler (Api.verbose cfg) db)))
                ([Middleware.LoggingDecorator;
                  Middleware.DefaultHeadersDecorator (Api.defaultHeaders env)]
                 ++ (if negb (String.eqb (Api.token cfg) EmptyString)
                     then [Api.authOf (Api.token cfg)] else [])
                 ++ [])%list r s
              = Middleware.ServeHTTP (Middleware.mkBadRequest false) r s2).
  { destruct (negb (String.eqb (Api.token cfg) EmptyString)) eqn:Ht;
      unfold Middleware.Append; cbn [fold_right foldr app];
      unfold Middleware.LoggingDecorator, Middleware.DefaultHeadersDecorator;
      fold s2; [| exact C].
    destruct Hauth as [He | Hv].
    - rewrite He in Ht. discriminate Ht.
    - rewrite (authOf_accepts _ _ _ _ Hv). exact C. }
  pose proof (BadRequest_writes (Middleware.mkBadRequest false) r s2 F2) as B.
  rewrite <- G in B. exact B.
Qed.

(** ** Evaluation on concrete inputs *)

Example split_path :
  Router.split "cpu/tags/a,b" = ["cpu"; "tags"; "a,b"] /\
  Router.split "raw/" = ["raw"; EmptyString] /\
  Router.split EmptyString = [EmptyString].
Proof. repeat split. Qed.

(** A second registration of the same method and pattern fails. *)
Example Add_twice (h : Router.RouteHandler) :
  (Router.Add "GET" "status" h (Router.mkRouter "/" []) ≫= Router.Add "GET" "status" h)
    = None.
Proof. reflexivity. Qed.

(** A longer path than the pattern does not match: the root router has
    no route for a path below status. *)
Example status_subpath_unmatched :
  Router.Match (fun x => x) (Api.built (Api.rRoot Sample.env "b" Sample.handler))
               "GET" "/hawkular/metrics/status/more" = None.
Proof. reflexivity. Qed.

Example pattern_fragment :
  Middleware.Compile "^/hawkular/metrics/st.tus$" = None /\
  (Middleware.Compile "/metrics" ≫= fun re =>
     Some (Middleware.MatchString re "/hawkular/metrics/status")) = Some true.
Proof. split; reflexivity. Qed.

(** With the token in the Authorization header the sample server lets a
    request through to its route handler. *)
Example authorized_request :
  logs (Api.SrvHandler (Sample.server (Sample.config "memory" EmptyString "secret"))
          (mkRequest "GET" "/hawkular/metrics/tenants"
                     "/hawkular/metrics/tenants?tags=a" "127.0.0.1:4000"
                     {["Authorization" := "Bearer secret"]})
          Sample.world)
    = ["127.0.0.1:4000 Accept-Encoding: ,  GET /hawkular/metrics/tenants?tags=a";
       "GetTenants"].
Proof. reflexivity. Qed.

(** A static file below the media root is served before the bad-request
    handler is asked. *)
Example static_file :
  let s := mkWorld newWriter [] {["/media/index.html" := "<html/>"]} in
  let s' := Api.fallback "/media" (Sample.request "GET" "/index.html") s in
  status (resp s') = 200 /\ body (resp s') = "<html/>".
Proof. split; reflexivity. Qed.

Example insert_points :
  foldl (fun l p => Storage.insertPoint p l) []
        [(5, "up"); (3, "down"); (5, "unknown"); (9, "up")]%Z
    = [(3, "down"); (5, "unknown"); (9, "up")]%Z.
Proof. reflexivity. Qed.

(** A failed query leaves the rule as it is. *)
Example query_failure_is_no_transition :
  Alerts.run Sample.rule [Some 95%Q; None; Some 99%Q; Some 10%Q]
    = (Sample.rule,
       [Some (Alerts.Fire "cpu-high"); None; None; Some (Alerts.Resolve "cpu-high")]).
Proof. reflexivity. Qed.

(** * Further properties of the sources *)

(** ** The bad-request handler and the response writer *)

(** What the bad-request handler does to the response writer. *)
Lemma BadRequest_resp (b : Middleware.BadRequest) (r : Request) (s : World) :
  resp (Middleware.ServeHTTP b r s) =
    if String.eqb (Method r) "OPTIONS" then
      Write Middleware.capabilityBody
        (HeaderSet "Access-Control-Allow-Methods" "GET, POST, DELETE, PUT"
           (HeaderSet "Access-Control-Allow-Headers"
                      "authorization,content-type,hawkular-tenant"
              (HeaderSet "Access-Control-Allow-Origin" "*"
                 (HeaderSet "Content-Type" "application/json"
                    (WriteHeader 200 (resp s))))))
    else Write Middleware.notFoundBody (WriteHeader 404 (resp s)).
Proof.
  unfold Middleware.ServeHTTP.
  destruct (String.eqb (Method r) "OPTIONS"); reflexivity.
Qed.

(** X1: in the OPTIONS branch the status line is written before the
    content type and CORS headers are set. On a response not yet
    started, the snapshot that is taken for the wire is therefore the
    header map as it was when the handler was called: the four values
    are in the handler's map and not in the snapshot, and none of the
    three Access-Control headers is on the wire unless it was in the map
    before the call. *)
Theorem BadRequest_options_headers_unsent :
  forall (b : Middleware.BadRequest) (r : Request) (s : World)
         (wire : gmap string string),
    Method r = "OPTIONS" ->
    wroteHeader (resp s) = false ->
    onWire (resp (Middleware.ServeHTTP b r s)) wire ->
    snapshot (resp (Middleware.ServeHTTP b r s)) = header (resp s) /\
    header (resp (Middleware.ServeHTTP b r s)) !! "Content-Type"
      = Some "application/json" /\
    header (resp (Middleware.ServeHTTP b r s)) !! "Access-Control-Allow-Origin"
      = Some "*" /\
    header (resp (Middleware.ServeHTTP b r s)) !! "Access-Control-Allow-Headers"
      = Some "authorization,content-type,hawkular-tenant" /\
    header (resp (Middleware.ServeHTTP b r s)) !! "Access-Control-Allow-Methods"
      = Some "GET, POST, DELETE, PUT" /\
    (forall k : string,
        In k ["Access-Control-Allow-Origin"; "Access-Control-Allow-Headers";
              "Access-Control-Allow-Methods"] ->
        header (resp s) !! k = None ->
        wire !! k = None).
Proof.
  intros b r s wire Hm Hw. unfold onWire. rewrite BadRequest_resp, Hm.
  change (String.eqb "OPTIONS" "OPTIONS") with true. cbv iota.
  destruct (resp s) as [w st h se bd]. cbn in Hw. subst w.
  cbv beta iota zeta delta [Write WriteHeader HeaderSet wroteHeader status header
                            snapshot body].
  intros Hwire.
  split; [reflexivity |].
  split; [| split; [| split; [| split]]].
  - rewrite !lookup_insert_ne by discriminate. apply lookup_insert_eq.
  - rewrite !lookup_insert_ne by discriminate. apply lookup_insert_eq.
  - rewrite lookup_insert_ne by discriminate. apply lookup_insert_eq.
  - apply lookup_insert_eq.
  - intros k Hk Hnone. apply Hwire; [| exact Hnone].
    unfold serverHeaders. cbn in Hk |- *.
    destruct Hk as [<- | [<- | [<- | []]]];
      intros [N | [N | [N | [N | [N | []]]]]]; discriminate N.
Qed.

Lemma sampleWire_onWire (w : ResponseWriter) : onWire w Fixtures.sampleWire.
Proof.
  intros k Hk _. unfold Fixtures.sampleWire, serverHeaders in *.
  rewrite !lookup_insert_ne; [apply lookup_empty | ..];
    intros <-; apply Hk; cbn; tauto.
Qed.

Lemma BadRequest_options_headers_unsent_witness :
  Fixtures.sampleWire !! "Access-Control-Allow-Origin" = None /\
  snapshot (resp (Middleware.ServeHTTP (Middleware.mkBadRequest false)
                    (Sample.request "OPTIONS" "/hawkular/metrics/gauges/raw")
                    Sample.world)) = ∅ /\
  header (resp (Middleware.ServeHTTP (Middleware.mkBadRequest false)
                  (Sample.request "OPTIONS" "/hawkular/metrics/gauges/raw")
                  Sample.world)) !! "Access-Control-Allow-Origin" = Some "*".
Proof.
  destruct (BadRequest_options_headers_unsent (Middleware.mkBadRequest false)
              (Sample.request "OPTIONS" "/hawkular/metrics/gauges/raw")
              Sample.world Fixtures.sampleWire eq_refl eq_refl
              (sampleWire_onWire _)) as (Hsnap & _ & Ho & _ & _ & Hs).
  split; [apply Hs; [left; reflexivity | reflexivity] |].
  split; [exact Hsnap | exact Ho].
Defined.

(** X3: on a response whose status line is already out the bad-request
    handler changes neither the status nor the header snapshot; its text
    is appended to the body that is there. *)
Theorem BadRequest_on_started_response :
  forall (b : Middleware.BadRequest) (r : Request) (s : World),
    wroteHeader (resp s) = true ->
    status (resp (Middleware.ServeHTTP b r s)) = status (resp s) /\
    snapshot (resp (Middleware.ServeHTTP b r s)) = snapshot (resp s) /\
    wroteHeader (resp (Middleware.ServeHTTP b r s)) = true /\
    body (resp (Middleware.ServeHTTP b r s))
      = body (resp s) +:+ (if String.eqb (Method r) "OPTIONS"
                           then Middleware.capabilityBody
                           else Middleware.notFoundBody).
Proof.
  intros b r s Hw. rewrite BadRequest_resp.
  destruct (resp s) as [w st h se bd]. cbn in Hw. subst w.
  destruct (String.eqb (Method r) "OPTIONS"); repeat split.
Qed.

Lemma BadRequest_on_started_response_witness :
  status (resp (Middleware.ServeHTTP (Middleware.mkBadRequest true)
                  (Sample.request "GET" "/nowhere") Fixtures.startedWorld)) = 201 /\
  body (resp (Middleware.ServeHTTP (Middleware.mkBadRequest true)
                (Sample.request "GET" "/nowhere") Fixtures.startedWorld))
    = "partial" +:+ Middleware.notFoundBody.
Proof.
  destruct (BadRequest_on_started_response (Middleware.mkBadRequest true)
              (Sample.request "GET" "/nowhere") Fixtures.startedWorld eq_refl)
    as (Hs & _ & _ & Hb).
  split; [exact Hs | exact Hb].
Defined.

(** X4: the response of the bad-request handler depends on the request
    method only: two requests with the same method get the same response
    on the same writer, whatever their paths, headers and remote
    addresses, and whatever the handler's Verbose field. *)
Theorem BadRequest_depends_on_method_only :
  forall (b1 b2 : Middleware.BadRequest) (r1 r2 : Request) (s : World),
    Method r1 = Method r2 ->
    resp (Middleware.ServeHTTP b1 r1 s) = resp (Middleware.ServeHTTP b2 r2 s) /\
    files (Middleware.ServeHTTP b1 r1 s) = files s.
Proof.
  intros b1 b2 r1 r2 s Hm. rewrite !BadRequest_resp, Hm.
  split; [reflexivity |]. unfold Middleware.ServeHTTP.
  destruct (String.eqb (Method r1) "OPTIONS"); reflexivity.
Qed.

Lemma BadRequest_depends_on_method_only_witness :
  resp (Middleware.ServeHTTP (Middleware.mkBadRequest true)
          (mkRequest "PUT" "/a" "/a?x=1" "10.0.0.1:1"
                     {["Accept-Encoding" := "gzip"]})
          Sample.world)
    = resp (Middleware.ServeHTTP (Middleware.mkBadRequest false)
              (Sample.request "PUT" "/b/c") Sample.world).
Proof.
  apply (BadRequest_depends_on_method_only (Middleware.mkBadRequest true)
           (Middleware.mkBadRequest false)
           (mkRequest "PUT" "/a" "/a?x=1" "10.0.0.1:1"
                     {["Accept-Encoding" := "gzip"]})
           (Sample.request "PUT" "/b/c") Sample.world eq_refl).
Defined.

(** What the bad-request handler adds to the log. *)
Lemma BadRequest_logs (b : Middleware.BadRequest) (r : Request) (s : World) :
  logs (Middleware.ServeHTTP b r s) =
    (logs s ++ (if String.eqb (Method r) "OPTIONS" then []
                else ["Page not found - 404:" +:+ nl; accessLine r]))%list.
Proof.
  unfold Middleware.ServeHTTP.
  destruct (String.eqb (Method r) "OPTIONS").
  - rewrite app_nil_r. reflexivity.
  - change (logs (Fprintf Middleware.notFoundBody
             (onResp (WriteHeader 404)
                (logPrintf (accessLine r)
                   (logPrintf ("Page not found - 404:" +:+ nl) s)))))
      with ((logs s ++ ["Page not found - 404:" +:+ nl]) ++ [accessLine r])%list.
    rewrite <- app_assoc. reflexivity.
Qed.

(** ** The logging handler *)

(** X2: the logging handler around the bad-request handler: every
    request is answered, the response is the one of the bad-request
    handler alone, and the log gains the access line followed, unless
    the method is OPTIONS, by the not-found line and the access line a
    second time. A logging handler that was never given a successor
    answers no request. *)
Theorem Logger_around_BadRequest :
  forall (l : HandlerPkg.Logger) (b : Middleware.BadRequest) (r : Request) (s : World),
    (exists s' : World,
        HandlerPkg.ServeHTTP (HandlerPkg.SetNext l (Middleware.ServeHTTP b)) r s
          = Some s' /\
        resp s' = resp (Middleware.ServeHTTP b r s) /\
        logs s' = (logs s ++ accessLine r ::
                     (if String.eqb (Method r) "OPTIONS" then []
                      else ["Page not found - 404:" +:+ nl; accessLine r]))%list) /\
    HandlerPkg.ServeHTTP (HandlerPkg.mkLogger None) r s = None.
Proof.
  intros l b r s. split; [| reflexivity].
  exists (Middleware.ServeHTTP b r (logPrintf (accessLine r) s)).
  split; [reflexivity |]. split.
  - rewrite !BadRequest_resp. reflexivity.
  - rewrite BadRequest_logs. cbn [logs logPrintf].
    rewrite <- app_assoc. reflexivity.
Qed.

(** ** The status document *)

(** The status handler appends the document and a newline to the body. *)
Lemma GetStatus_body (name : string) (r : Request) (argv : gmap string string)
      (s : World) :
  body (resp (Api.GetStatus name r argv s))
    = body (resp s) +:+ (resTemplate Api.defaultAPI Api.VER name +:+ nl).
Proof.
  unfold Api.GetStatus, Fprintln, onResp, Write, WriteHeader.
  cbn [resp wroteHeader status header snapshot body].
  destruct (wroteHeader (resp s)) eqn:Hw;
    cbn [resp wroteHeader status header snapshot body]; rewrite ?Hw; reflexivity.
Qed.

(** The backend name can be read back from the status document. *)
Lemma resTemplate_inj (api ver n1 n2 : string) :
  resTemplate api ver n1 = resTemplate api ver n2 -> n1 = n2.
Proof.
  unfold resTemplate, quoted. intros H.
  repeat (apply append_cancel_l in H).
  rewrite !append_assoc in H.
  repeat (apply append_cancel_l in H).
  rewrite <- !append_assoc in H. repeat (apply append_cancel_r in H).
  exact H.
Qed.

(** X5: the status document identifies the backend: for two different
    backend names the status handler writes different bodies, whatever
    the requests and whatever was written to the response before. *)
Theorem status_document_names_backend :
  forall (n1 n2 : string) (r1 r2 : Request) (a1 a2 : gmap string string) (s : World),
    n1 <> n2 ->
    body (resp (Api.GetStatus n1 r1 a1 s)) <> body (resp (Api.GetStatus n2 r2 a2 s)).
Proof.
  intros n1 n2 r1 r2 a1 a2 s Hne H. apply Hne.
  rewrite !GetStatus_body in H.
  apply append_cancel_l, append_cancel_r in H.
  exact (resTemplate_inj _ _ _ _ H).
Qed.

Lemma status_document_names_backend_witness :
  body (resp (Api.GetStatus "Backend-Memory" Sample.statusRequest ∅ Sample.world))
    <> body (resp (Api.GetStatus "Backend-Mongo" Sample.statusRequest ∅ Sample.world)).
Proof.
  apply (status_document_names_backend "Backend-Memory" "Backend-Mongo"
           Sample.statusRequest Sample.statusRequest ∅ ∅ Sample.world).
  discriminate.
Defined.

(** X6: the status handler of release 0.10 writes, on an untouched
    response, status 200 and the same document with the version 0.10.2,
    followed by a newline. *)
Theorem GetStatus010_document :
  forall (name : string) (r : Request) (argv : gmap string string) (s : World),
    fresh s ->
    status (resp (Main010.GetStatus name r argv s)) = 200 /\
    body (resp (Main010.GetStatus name r argv s))
      = "{" +:+ quoted "MetricsService" +:+ ":" +:+ quoted "STARTED" +:+ ","
            +:+ quoted "Implementation-Version" +:+ ":" +:+ quoted "0.21.0" +:+ ","
            +:+ quoted "MohawkVersion" +:+ ":" +:+ quoted "0.10.2" +:+ ","
            +:+ quoted "MohawkBackend" +:+ ":" +:+ quoted name +:+ "}" +:+ nl /\
    logs (Main010.GetStatus name r argv s) = logs s.
Proof.
  intros name r argv s F.
  destruct (first_write 200 (resTemplate "0.21.0" "0.10.2" name +:+ nl) s F)
    as [Hs Hb].
  split; [exact Hs |]. split; [| reflexivity].
  etransitivity; [exact Hb |].
  unfold resTemplate. rewrite <- !append_assoc. reflexivity.
Qed.

Lemma GetStatus010_document_witness :
  status (resp (Main010.GetStatus "Backend-Sqlite" Sample.statusRequest ∅
                                  Sample.world)) = 200.
Proof.
  apply (GetStatus010_document "Backend-Sqlite" Sample.statusRequest ∅
           Sample.world fresh_sample).
Defined.

(** ** The startup sequence of [Serve] *)

Section ServeStartup.

Import Api.

Variable env : Env.

(** The four ways [Serve] can go. *)
Lemma Serve_cases (cfg : Config) :
  match selectBackend (storage cfg) with
  | None =>
      Serve env cfg = ([EPrint ("Can't find storage:" +:+ storage cfg); EExit 1], None)
  | Some db =>
      match ParseQuery env (options cfg) with
      | None =>
          Serve env cfg
            = ([EPrint ("Can't parse opetions:" +:+ options cfg); EExit 1], None)
      | Some opts =>
          let pre :=
            (EOpen db opts ::
               (if configAlerts cfg
                then [EAlertsInit (Alerts.mkAlerts Backend db (verbose cfg) (alerts cfg))]
                else []) ++
               [EPrint ("Start server, listen on "
                        +:+ (if tls cfg then "https://" else "http://")
                        +:+ "0.0.0.0:" +:+ pretty (port cfg))])%list in
          match ListenAndServe env (ApiStartup.addrOf cfg) (ApiStartup.filesOf cfg) with
          | Some err => Serve env cfg = ((pre ++ [EPrint err; EExit 1])%list, None)
          | None =>
              exists srv : Server,
                Serve env cfg
                  = ((pre ++ [EListen ("0.0.0.0:" +:+ pretty (port cfg)) (tls cfg)])%list,
                     Some srv) /\
                Addr srv = "0.0.0.0:" +:+ pretty (port cfg) /\
                ReadTimeout srv = 10 /\ WriteTimeout srv = 10 /\
                MaxHeaderBytes srv = 1048576
          end
      end
  end.
Proof.
  unfold Serve, ApiStartup.addrOf, ApiStartup.filesOf. cbv zeta.
  destruct (selectBackend (storage cfg)) as [db |]; [| reflexivity].
  destruct (ParseQuery env (options cfg)) as [opts |]; [| reflexivity].
  cbv beta iota delta [bind ret emit].
  destruct (configAlerts cfg); rewrite routers_built, decorators_built;
    cbv beta iota delta [must ret];
    destruct (tls cfg);
    cbv beta iota zeta delta [listenOrFatal bind ret emit logFatal Addr];
    match goal with
    | |- context [ListenAndServe env ?a ?f] => destruct (ListenAndServe env a f)
    end;
    first [reflexivity | eexists; repeat split].
Qed.

(** The test of line 70 of server.go. *)
Lemma configAlerts_true (cfg : Config) :
  configAlerts cfg = true <->
  configFileUsed cfg <> EmptyString /\ alertsValue cfg <> VString EmptyString.
Proof.
  unfold configAlerts, notEmptyString.
  destruct (String.eqb_spec (configFileUsed cfg) EmptyString) as [E | E]; cbn.
  - split; [discriminate | intros [N _]; contradiction].
  - destruct (alertsValue cfg) as [| v |].
    + split; [intros _; split; [exact E | discriminate] | reflexivity].
    + destruct (String.eqb_spec v EmptyString) as [-> | Hv]; cbn.
      * split; [discriminate | intros [_ N]; contradiction].
      * split; [intros _; split; [exact E | congruence] | reflexivity].
    + split; [intros _; split; [exact E | discriminate] | reflexivity].
Qed.

Lemma selectBackend_In (q : string) :
  In q ["sqlite"; "memory"; "mongo"; "example"] ->
  exists db, selectBackend q = Some db.
Proof.
  cbn. intros [<- | [<- | [<- | [<- | []]]]]; eexists; reflexivity.
Qed.

End ServeStartup.

(** X7: with a supported storage name and options that parse, [Serve]
    opens the selected storage with the parsed options, then initialises
    the alerts runner exactly when a config file is in use and the value
    of its alerts key is not the empty string (a missing key counts as
    not empty), then logs the address, https exactly when TLS is on, and
    calls the listener for 0.0.0.0 and the configured port, with the
    certificate and key files exactly when TLS is on. If the listener
    returns an error at once, that error is logged and the process exits
    with status 1; otherwise the listener serves, and the server has 10
    second timeouts and a header limit of 1 MiB. *)
Theorem Serve_success_trace :
  forall (env : Api.Env) (cfg : Api.Config) (db : Api.Backend)
         (opts : gmap string (list string)),
    Api.selectBackend (Api.storage cfg) = Some db ->
    Api.ParseQuery env (Api.options cfg) = Some opts ->
    exists runner : list Api.Event,
      (Api.configFileUsed cfg <> EmptyString ->
       Api.alertsValue cfg <> Api.VString EmptyString ->
         runner = [Api.EAlertsInit
                     (Alerts.mkAlerts Api.Backend db (Api.verbose cfg) (Api.alerts cfg))]) /\
      (Api.configFileUsed cfg = EmptyString \/
       Api.alertsValue cfg = Api.VString EmptyString -> runner = []) /\
      (Api.ListenAndServe env ("0.0.0.0:" +:+ pretty (Api.port cfg))
           (if Api.tls cfg then Some (Api.cert cfg, Api.key cfg) else None) = None ->
         exists srv : Api.Server,
           Api.Serve env cfg
             = ((Api.EOpen db opts :: runner ++
                   [Api.EPrint ("Start server, listen on "
                                +:+ (if Api.tls cfg then "https://" else "http://")
                                +:+ "0.0.0.0:" +:+ pretty (Api.port cfg));
                    Api.EListen ("0.0.0.0:" +:+ pretty (Api.port cfg)) (Api.tls cfg)])%list,
                Some srv) /\
           Api.Addr srv = "0.0.0.0:" +:+ pretty (Api.port cfg) /\
           Api.ReadTimeout srv = 10 /\ Api.WriteTimeout srv = 10 /\
           Api.MaxHeaderBytes srv = 1048576) /\
      (forall err : string,
         Api.ListenAndServe env ("0.0.0.0:" +:+ pretty (Api.port cfg))
           (if Api.tls cfg then Some (Api.cert cfg, Api.key cfg) else None) = Some err ->
         Api.Serve env cfg
           = ((Api.EOpen db opts :: runner ++
                 [Api.EPrint ("Start server, listen on "
                              +:+ (if Api.tls cfg then "https://" else "http://")
                              +:+ "0.0.0.0:" +:+ pretty (Api.port cfg));
                  Api.EPrint err; Api.EExit 1])%list,
              None)).
Proof.
  intros env cfg db opts Hdb Hopts.
  pose proof (Serve_cases env cfg) as H. rewrite Hdb, Hopts in H. cbv zeta in H.
  unfold ApiStartup.addrOf, ApiStartup.filesOf in H.
  pose proof (configAlerts_true cfg) as HC.
  destruct (Api.configAlerts cfg).
  - exists [Api.EAlertsInit
              (Alerts.mkAlerts Api.Backend db (Api.verbose cfg) (Api.alerts cfg))].
    destruct (proj1 HC eq_refl) as [Hf Hv].
    split; [reflexivity |].
    split; [intros [E | E]; contradiction |].
    split.
    + intros HL. rewrite HL in H. exact H.
    + intros err HL. rewrite HL in H. exact H.
  - exists [].
    split; [intros Hf Hv; discriminate (proj2 HC (conj Hf Hv)) |].
    split; [reflexivity |].
    split.
    + intros HL. rewrite HL in H. exact H.
    + intros err HL. rewrite HL in H. exact H.
Qed.

Lemma Serve_success_trace_witness :
  exists srv : Api.Server,
    Api.Serve Sample.env Fixtures.alertsConfig
      = ([Api.EOpen Api.Sqlite {["db-dirname" := ["/tmp"]]};
          Api.EAlertsInit (Alerts.mkAlerts Api.Backend Api.Sqlite true [Sample.rule]);
          Api.EPrint "Start server, listen on https://0.0.0.0:8443";
          Api.EListen "0.0.0.0:8443" true], Some srv).
Proof.
  destruct (Serve_success_trace Sample.env Fixtures.alertsConfig Api.Sqlite
              {["db-dirname" := ["/tmp"]]} eq_refl eq_refl)
    as (runner & Hrun & _ & Hok & _).
  destruct (Hok eq_refl) as (srv & E & _).
  exists srv. rewrite E, Hrun; [reflexivity | discriminate | discriminate].
Defined.

(** A config file without an alerts key: the runner is initialised,
    with an empty rule list. *)
Example runner_without_alerts_key :
  fst (Api.Serve Sample.env Fixtures.noAlertsKeyConfig)
    = [Api.EOpen Api.Memory ∅;
       Api.EAlertsInit (Alerts.mkAlerts Api.Backend Api.Memory false []);
       Api.EPrint "Start server, listen on http://0.0.0.0:8080";
       Api.EListen "0.0.0.0:8080" false].
Proof. reflexivity. Qed.

(** A port that is taken: storage and runner are set up, then the
    listener's error is logged and the process exits. *)
Example busy_port :
  Api.Serve Sample.env Fixtures.busyPortConfig
    = ([Api.EOpen Api.Memory ∅;
        Api.EAlertsInit (Alerts.mkAlerts Api.Backend Api.Memory false [Sample.rule]);
        Api.EPrint "Start server, listen on http://0.0.0.0:80";
        Api.EPrint "listen tcp 0.0.0.0:80: bind: address already in use";
        Api.EExit 1], None).
Proof. reflexivity. Qed.

(** X8: [Serve] ends with a serving listener exactly when the storage
    name is one of sqlite, memory, mongo, example, the options string
    parses and the listener returns no error at once. No route
    registration fails and the exemption pattern compiles, so no
    configuration makes it panic. Every run that does not end with a
    serving listener ends with a logged line and exit status 1 and has
    not started the listener. *)
Theorem Serve_listens_iff :
  forall (env : Api.Env) (cfg : Api.Config),
    (snd (Api.Serve env cfg) <> None <->
       In (Api.storage cfg) ["sqlite"; "memory"; "mongo"; "example"] /\
       Api.ParseQuery env (Api.options cfg) <> None /\
       Api.ListenAndServe env ("0.0.0.0:" +:+ pretty (Api.port cfg))
         (if Api.tls cfg then Some (Api.cert cfg, Api.key cfg) else None) = None) /\
    existsb ApiStartup.isPanic (fst (Api.Serve env cfg)) = false /\
    (snd (Api.Serve env cfg) = None ->
       existsb Api.isListen (fst (Api.Serve env cfg)) = false /\
       exists (before : list Api.Event) (msg : string),
         fst (Api.Serve env cfg) = (before ++ [Api.EPrint msg; Api.EExit 1])%list).
Proof.
  intros env cfg. pose proof (Serve_cases env cfg) as H.
  unfold ApiStartup.addrOf, ApiStartup.filesOf in H.
  destruct (Api.selectBackend (Api.storage cfg)) as [db |] eqn:Hdb.
  - apply selectBackend_Some in Hdb.
    destruct (Api.ParseQuery env (Api.options cfg)) as [opts |] eqn:Hopts.
    + cbv zeta in H.
      destruct (Api.ListenAndServe env ("0.0.0.0:" +:+ pretty (Api.port cfg))
                  (if Api.tls cfg then Some (Api.cert cfg, Api.key cfg) else None))
        as [err |] eqn:HL.
      * rewrite H. cbn [fst snd]. split; [| split].
        -- split; [intros N; contradiction | intros (_ & _ & N); discriminate N].
        -- destruct (Api.configAlerts cfg); reflexivity.
        -- intros _. split; [destruct (Api.configAlerts cfg); reflexivity |].
           eexists. exists err. reflexivity.
      * destruct H as (srv & -> & _). cbn [fst snd]. split; [| split].
        -- split; [intros _; repeat split; [exact Hdb | discriminate] | discriminate].
        -- destruct (Api.configAlerts cfg); reflexivity.
        -- discriminate.
    + rewrite H. cbn [fst snd]. split; [| split].
      * split; [intros N; contradiction | intros (_ & N & _); contradiction].
      * reflexivity.
      * intros _. split; [reflexivity |]. exists []. eexists. reflexivity.
  - rewrite H. cbn [fst snd]. split; [| split].
    + split; [intros N; contradiction |].
      intros [Hin _]. exfalso.
      destruct (selectBackend_In _ Hin) as [db E]. congruence.
    + reflexivity.
    + intros _. split; [reflexivity |]. exists []. eexists. reflexivity.
Qed.

(** X9: the storage name is checked before the options are parsed: with
    an unsupported name the logged cause is the storage, whatever the
    options string is; with a supported name and options that do not
    parse, the cause is the options and the storage is never opened. *)
Theorem Serve_storage_checked_first :
  forall (env : Api.Env) (cfg : Api.Config),
    (~ In (Api.storage cfg) ["sqlite"; "memory"; "mongo"; "example"] ->
       Api.Serve env cfg
         = ([Api.EPrint ("Can't find storage:" +:+ Api.storage cfg); Api.EExit 1],
            None)) /\
    (In (Api.storage cfg) ["sqlite"; "memory"; "mongo"; "example"] ->
     Api.ParseQuery env (Api.options cfg) = None ->
       Api.Serve env cfg
         = ([Api.EPrint ("Can't parse opetions:" +:+ Api.options cfg); Api.EExit 1],
            None)).
Proof.
  intros env cfg. pose proof (Serve_cases env cfg) as H. split.
  - intros Hn. rewrite (selectBackend_None _ Hn) in H. exact H.
  - intros Hin Hp.
    destruct (Api.selectBackend (Api.storage cfg)) as [db |] eqn:Hdb.
    + rewrite Hp in H. exact H.
    + exfalso. unfold Api.selectBackend in Hdb. cbn in Hin.
      destruct Hin as [E | [E | [E | [E | []]]]]; rewrite <- E in Hdb;
        discriminate Hdb.
Qed.

(** X10: the alerts runner is initialised exactly in the runs in which
    a config file is in use, the value of its alerts key is not the
    empty string (a missing key counts as not empty), the storage name
    is supported and the options parse; it then holds the selected
    storage, the verbose flag and the decoded rule list, and its
    initialisation follows the opening of that storage at once and
    precedes the call of the listener. *)
Theorem Serve_alerts_runner :
  forall (env : Api.Env) (cfg : Api.Config) (a : Alerts.AlertsRunner Api.Backend),
    (In (Api.EAlertsInit a) (fst (Api.Serve env cfg)) <->
       Api.configFileUsed cfg <> EmptyString /\
       Api.alertsValue cfg <> Api.VString EmptyString /\
       Api.ParseQuery env (Api.options cfg) <> None /\
       exists db : Api.Backend,
         Api.selectBackend (Api.storage cfg) = Some db /\
         a = Alerts.mkAlerts Api.Backend db (Api.verbose cfg) (Api.alerts cfg)) /\
    (In (Api.EAlertsInit a) (fst (Api.Serve env cfg)) ->
       exists (db : Api.Backend) (opts : gmap string (list string)) (msg : string)
              (rest : list Api.Event),
         Api.selectBackend (Api.storage cfg) = Some db /\
         fst (Api.Serve env cfg)
           = Api.EOpen db opts :: Api.EAlertsInit a :: Api.EPrint msg :: rest /\
         (rest = [Api.EListen ("0.0.0.0:" +:+ pretty (Api.port cfg)) (Api.tls cfg)] \/
          exists err : string, rest = [Api.EPrint err; Api.EExit 1])).
Proof.
  intros env cfg a. pose proof (Serve_cases env cfg) as H.
  pose proof (configAlerts_true cfg) as HC.
  destruct (Api.selectBackend (Api.storage cfg)) as [db |] eqn:Hdb.
  - destruct (Api.ParseQuery env (Api.options cfg)) as [opts |] eqn:Hopts.
    + cbv zeta in H.
      assert (T : exists rest,
                 fst (Api.Serve env cfg)
                   = (Api.EOpen db opts ::
                        (if Api.configAlerts cfg
                         then [Api.EAlertsInit
                                 (Alerts.mkAlerts Api.Backend db (Api.verbose cfg)
                                                  (Api.alerts cfg))]
                         else []) ++
                        Api.EPrint ("Start server, listen on "
                                    +:+ (if Api.tls cfg then "https://" else "http://")
                                    +:+ "0.0.0.0:" +:+ pretty (Api.port cfg)) :: rest)%list /\
                 (rest = [Api.EListen ("0.0.0.0:" +:+ pretty (Api.port cfg)) (Api.tls cfg)] \/
                  exists err : string, rest = [Api.EPrint err; Api.EExit 1])).
      { destruct (Api.ListenAndServe env (ApiStartup.addrOf cfg) (ApiStartup.filesOf cfg))
          as [err |].
        - rewrite H. cbn [fst]. eexists. split.
          + rewrite app_comm_cons, <- app_assoc. reflexivity.
          + right. exists err. reflexivity.
        - destruct H as (srv & -> & _). cbn [fst]. eexists. split.
          + rewrite app_comm_cons, <- app_assoc. reflexivity.
          + left. reflexivity. }
      destruct T as (rest & -> & Hrest).
      destruct (Api.configAlerts cfg).
      * destruct (proj1 HC eq_refl) as [Hf Hv]. split.
        -- split.
           ++ intros Hin. split; [exact Hf |]. split; [exact Hv |].
              split; [discriminate |]. exists db. split; [reflexivity |].
              destruct Hin as [N | [N | [N | N]]]; try discriminate N.
              ** injection N as <-. reflexivity.
              ** destruct Hrest as [-> | [err ->]]; cbn in N;
                   repeat (destruct N as [N | N]; [discriminate N |]); contradiction.
           ++ intros (_ & _ & _ & db' & [= <-] & ->). right. left. reflexivity.
        -- intros Hin.
           destruct Hin as [N | [N | [N | N]]]; try discriminate N.
           ++ injection N as <-. exists db, opts. eexists. exists rest.
              split; [reflexivity |]. split; [reflexivity | exact Hrest].
           ++ destruct Hrest as [-> | [err ->]]; cbn in N;
                repeat (destruct N as [N | N]; [discriminate N |]); contradiction.
      * assert (No : ~ In (Api.EAlertsInit a)
                       (Api.EOpen db opts :: [] ++
                          Api.EPrint ("Start server, listen on "
                                      +:+ (if Api.tls cfg then "https://" else "http://")
                                      +:+ "0.0.0.0:" +:+ pretty (Api.port cfg)) :: rest)%list).
        { intros [N | [N | N]]; try discriminate N.
          destruct Hrest as [-> | [err ->]]; cbn in N;
            repeat (destruct N as [N | N]; [discriminate N |]); contradiction. }
        split; [split |]; try (intros Hin; contradiction).
        intros (Hf & Hv & _). discriminate (proj2 HC (conj Hf Hv)).
    + rewrite H. cbn [fst]. split; [split |].
      * intros [N | [N | []]]; discriminate N.
      * intros (_ & _ & N & _). contradiction.
      * intros [N | [N | []]]; discriminate N.
  - rewrite H. cbn [fst]. split; [split |].
    + intros [N | [N | []]]; discriminate N.
    + intros (_ & _ & _ & db & N & _). discriminate N.
    + intros [N | [N | []]]; discriminate N.
Qed.

Lemma Serve_alerts_runner_witness :
  In (Api.EAlertsInit (Alerts.mkAlerts Api.Backend Api.Memory false []))
     (fst (Api.Serve Sample.env Fixtures.noAlertsKeyConfig)).
Proof.
  apply (proj1 (Serve_alerts_runner Sample.env Fixtures.noAlertsKeyConfig
                  (Alerts.mkAlerts Api.Backend Api.Memory false []))).
  split; [discriminate |]. split; [discriminate |]. split; [discriminate |].
  exists Api.Memory. split; reflexivity.
Defined.

(** ** The program of release 0.10 *)

Section Release010Facts.

Import Release010 Process.

Variable env : Env.

Lemma routers010_built (name : string) (h : Handler) :
  rRoot env name h = Some (default (Router.mkRouter EmptyString []) (rRoot env name h)) /\
  rGauges env h = Some (default (Router.mkRouter EmptyString []) (rGauges env h)) /\
  rCounters env h = Some (default (Router.mkRouter EmptyString []) (rCounters env h)) /\
  rAvailability env h
    = Some (default (Router.mkRouter EmptyString []) (rAvailability env h)).
Proof. repeat split. Qed.

End Release010Facts.

(** X11: the four ways the program of release 0.10 can go. With the
    version flag it prints the version and returns, whatever the other
    flags are. Otherwise a backend other than sqlite is fatal, then
    options that do not parse are fatal (exit status 1, nothing opened);
    otherwise the storage is opened with the parsed options and the
    listener starts on 0.0.0.0 and the port, with the certificate and
    key files exactly when the tls flag is set. *)
Theorem main010_outcomes :
  forall (env : Release010.Env) (f : Release010.Flags),
    (Release010.version f = true ->
       Release010.main env f
         = ([Process.Stdout ("MoHawk version: 0.10.2" +:+ nl +:+ nl); Process.Return],
            None)) /\
    (Release010.version f = false -> Release010.backend f <> "sqlite" ->
       Release010.main env f
         = ([Process.Log ("Can't find backend:" +:+ Release010.backend f);
             Process.Exit 1], None)) /\
    (Release010.version f = false -> Release010.backend f = "sqlite" ->
     Release010.ParseQuery env (Release010.options f) = None ->
       Release010.main env f
         = ([Process.Log ("Can't parse opetions:" +:+ Release010.options f);
             Process.Exit 1], None)) /\
    (forall opts : gmap string (list string),
       Release010.version f = false -> Release010.backend f = "sqlite" ->
       Release010.ParseQuery env (Release010.options f) = Some opts ->
       exists srv : Api.Server,
         Release010.main env f
           = ([Process.Open Release010.Sqlite (Some opts);
               Process.Log ("Start server, listen on "
                            +:+ (if Release010.tls f then "https://" else "http://")
                            +:+ "0.0.0.0:" +:+ pretty (Release010.port f));
               Process.Listen ("0.0.0.0:" +:+ pretty (Release010.port f))
                 (if Release010.tls f
                  then Some (Release010.cert f, Release010.key f) else None)],
              Some srv) /\
         Api.Addr srv = "0.0.0.0:" +:+ pretty (Release010.port f)).
Proof.
  intros env f. unfold Release010.main. split; [| split; [| split]].
  - intros ->. reflexivity.
  - intros -> Hb.
    destruct (String.eqb_spec (Release010.backend f) "sqlite"); [contradiction |].
    reflexivity.
  - intros -> -> Hp. cbn [String.eqb Ascii.eqb Bool.eqb]. rewrite Hp. reflexivity.
  - intros opts -> Hb Hp. rewrite Hb, Hp. cbv zeta.
    change (String.eqb "sqlite" "sqlite") with true. cbv iota.
    cbv beta iota delta [Process.bind Process.ret Process.emit].
    destruct (routers010_built env (Release010.Name env Release010.Sqlite)
                (Release010.mkHandler (Release010.verbose f) Release010.Sqlite))
      as (Hr & Hg & Hc & Ha).
    rewrite Hr, Hg, Hc, Ha.
    cbv beta iota delta [Process.must Process.ret].
    destruct (Release010.tls f); eexists; split; reflexivity.
Qed.

(** X12: [Serve] registers exactly the routes of release 0.10 and seven
    more: PUT gauges/tags and the six routes under its deprecated
    comments (GET :id/data, POST data and POST stats/query, for gauges
    and for counters). Every route of release 0.10 is still registered,
    each of the seven is registered by [Serve] and by no router of
    release 0.10, and [Serve] registers nothing else. *)
Theorem routes_010_kept :
  forall (env10 : Release010.Env) (name10 : string) (h10 : Release010.Handler)
         (env : Api.Env) (name : string) (h : Api.Handler),
    let added : list (string * string) :=
      [ ("PUT", "/hawkular/metrics/gauges/tags");
        ("GET", "/hawkular/metrics/gauges/:id/data");
        ("POST", "/hawkular/metrics/gauges/data");
        ("POST", "/hawkular/metrics/gauges/stats/query");
        ("GET", "/hawkular/metrics/counters/:id/data");
        ("POST", "/hawkular/metrics/counters/data");
        ("POST", "/hawkular/metrics/counters/stats/query") ] in
    (forall x : string * string,
        In x (Release010.registered env10 name10 h10) ->
        In x (Api.registered env name h)) /\
    (forall x : string * string,
        In x (Api.registered env name h) ->
        In x (Release010.registered env10 name10 h10) \/ In x added) /\
    (forall x : string * string,
        In x added ->
        In x (Api.registered env name h) /\
        ~ In x (Release010.registered env10 name10 h10)) /\
    length (Api.registered env name h)
      = (length (Release010.registered env10 name10 h10) + 7)%nat.
Proof.
  intros env10 name10 h10 env name h added.
  assert (E : forall y, In y (Api.registered env name h) <->
                        In y (Release010.registered env10 name10 h10 ++ added)%list).
  { rewrite registered_list. apply same_routes; reflexivity. }
  split; [| split; [| split]].
  - intros x H. apply (proj2 (E x)), in_or_app. left. exact H.
  - intros x H. apply (proj1 (E x)), in_app_or in H. exact H.
  - intros x H. split.
    + apply (proj2 (E x)), in_or_app. right. exact H.
    + intros Hx. apply memRoute_In in Hx.
      destruct H as [<- | [<- | [<- | [<- | [<- | [<- | [<- | []]]]]]]];
        discriminate Hx.
  - rewrite registered_list. reflexivity.
Qed.

Lemma routes_010_kept_witness :
  In ("GET", "/hawkular/metrics/gauges/:id/data")
     (Api.registered Sample.env "Backend-Memory" Sample.handler) /\
  ~ In ("GET", "/hawkular/metrics/gauges/:id/data")
       (Release010.registered Fixtures.env010 "Backend-Sqlite"
          (Release010.mkHandler false Release010.Sqlite)).
Proof.
  apply (routes_010_kept Fixtures.env010 "Backend-Sqlite"
           (Release010.mkHandler false Release010.Sqlite)
           Sample.env "Backend-Memory" Sample.handler).
  right. left. reflexivity.
Defined.

(** ** The program of release 0.6 *)

Section Release061Facts.

Import Release061 Process.

Variable env : Env.

Lemma routers061_built (h : Handler) :
  rRoot env h = Some (default (Router.mkRouter EmptyString []) (rRoot env h)) /\
  rMetrics env h = Some (default (Router.mkRouter EmptyString []) (rMetrics env h)).
Proof. split; reflexivity. Qed.

End Release061Facts.

(** X13: the program of release 0.6 has no fatal path before the
    listener: for all flag values it opens a storage, logs the address
    and starts the listener. The storage is sqlite exactly when the
    backend flag is "sqlite" and the random one for every other text,
    and TLS, with server.pem and server.key, is used exactly when the
    tls flag is the text "true". *)
Theorem main061_always_listens :
  forall (env : Release061.Env) (f : Release061.Flags),
    (exists srv : Api.Server,
        Release061.main env f
          = ([Process.Open (Release061.selectBackend (Release061.backend f)) None;
              Process.Log ("Start server, listen on "
                           +:+ (if String.eqb (Release061.tls f) "true"
                                then "https://" else "http://")
                           +:+ "0.0.0.0:" +:+ pretty (Release061.port f));
              Process.Listen ("0.0.0.0:" +:+ pretty (Release061.port f))
                (if String.eqb (Release061.tls f) "true"
                 then Some ("server.pem", "server.key") else None)],
             Some srv)) /\
    (Release061.selectBackend (Release061.backend f) = Release061.Sqlite <->
       Release061.backend f = "sqlite") /\
    (Release061.backend f <> "sqlite" ->
       Release061.selectBackend (Release061.backend f) = Release061.Random).
Proof.
  intros env f. split; [| split].
  - unfold Release061.main. cbv zeta.
    cbv beta iota delta [Process.bind Process.ret Process.emit].
    destruct (routers061_built env
                (Release061.mkHandler (Release061.selectBackend (Release061.backend f))
                                      (Release061.api f))) as (Hr & Hm).
    rewrite Hr, Hm. cbv beta iota delta [Process.must Process.ret].
    destruct (String.eqb (Release061.tls f) "true"); eexists; reflexivity.
  - unfold Release061.selectBackend.
    destruct (String.eqb_spec (Release061.backend f) "sqlite");
      split; intros; (assumption || reflexivity || discriminate || contradiction).
  - intros Hn. unfold Release061.selectBackend.
    destruct (String.eqb_spec (Release061.backend f) "sqlite");
      [contradiction | reflexivity].
Qed.

(** X14: with the backend flag "error" the program of release 0.6
    leaves the metrics router out of the chain: only GET /oapi and
    GET /hawkular/metrics/status remain routed (and the storage is the
    random one); with any other backend the chain has the routes of the
    metrics router first and then these two. *)
Theorem main061_error_backend :
  forall (env : Release061.Env) (f : Release061.Flags) (h : Release061.Handler),
    (Release061.backend f = "error" ->
       Release061.registered env f h
         = [("GET", "/oapi"); ("GET", "/hawkular/metrics/status")] /\
       Release061.selectBackend (Release061.backend f) = Release061.Random) /\
    (Release061.backend f <> "error" ->
       Release061.registered env f h
         = (Api.table (default (Router.mkRouter EmptyString [])
                               (Release061.rMetrics env h))
            ++ [("GET", "/oapi"); ("GET", "/hawkular/metrics/status")])%list /\
       length (Release061.registered env f h) = 21%nat).
Proof.
  intros env f h. unfold Release061.registered, Release061.middlewares. split.
  - intros ->. split; reflexivity.
  - intros Hn.
    destruct (String.eqb_spec (Release061.backend f) "error"); [contradiction |].
    split; reflexivity.
Qed.

(** X15: of the routes of release 0.6 all but two are still registered
    by [Serve], and those two are gone: GET /oapi, which release 0.6
    always routes, and GET availability/:id/data, which it routes unless
    the backend flag is "error", are registered by no router of
    [Serve]. *)
Theorem routes_061_kept :
  forall (env61 : Release061.Env) (f : Release061.Flags) (h61 : Release061.Handler)
         (env : Api.Env) (name : string) (h : Api.Handler),
    (forall x : string * string,
        In x (Release061.registered env61 f h61) ->
        In x (Api.registered env name h) \/
        x = ("GET", "/oapi") \/
        x = ("GET", "/hawkular/metrics/availability/:id/data")) /\
    In ("GET", "/oapi") (Release061.registered env61 f h61) /\
    ~ In ("GET", "/oapi") (Api.registered env name h) /\
    (Release061.backend f <> "error" ->
       In ("GET", "/hawkular/metrics/availability/:id/data")
          (Release061.registered env61 f h61)) /\
    ~ In ("GET", "/hawkular/metrics/availability/:id/data")
         (Api.registered env name h).
Proof.
  intros env61 f h61 env name h.
  split; [| split; [| split; [| split]]].
  - intros x Hx.
    assert (A : forallb (fun y => Section6.memRoute y
                   (Api.registered env name h
                    ++ [("GET", "/oapi");
                        ("GET", "/hawkular/metrics/availability/:id/data")])%list)
                  (Api.table (default (Router.mkRouter EmptyString [])
                                      (Release061.rMetrics env61 h61))
                   ++ [("GET", "/oapi"); ("GET", "/hawkular/metrics/status")])%list
                = true).
    { rewrite registered_list. reflexivity. }
    rewrite forallb_forall in A.
    assert (Hx' : In x (Api.table (default (Router.mkRouter EmptyString [])
                                           (Release061.rMetrics env61 h61))
                        ++ [("GET", "/oapi"); ("GET", "/hawkular/metrics/status")])%list).
    { unfold Release061.registered, Release061.middlewares in Hx.
      destruct (String.eqb (Release061.backend f) "error").
      - apply in_app_iff. right. exact Hx.
      - exact Hx. }
    apply A, memRoute_In, in_app_iff in Hx'.
    destruct Hx' as [H | [H | [H | []]]]; auto.
  - unfold Release061.registered, Release061.middlewares.
    destruct (String.eqb (Release061.backend f) "error");
      apply memRoute_In; reflexivity.
  - intros H. apply memRoute_In in H. rewrite registered_list in H.
    discriminate H.
  - intros Hn. unfold Release061.registered, Release061.middlewares.
    destruct (String.eqb_spec (Release061.backend f) "error"); [contradiction |].
    apply memRoute_In. reflexivity.
  - intros H. apply memRoute_In in H. rewrite registered_list in H.
    discriminate H.
Qed.

Lemma routes_061_kept_witness :
  In ("GET", "/hawkular/metrics/availability/:id/data")
     (Release061.registered Fixtures.env061 Release061.defaultFlags
        (Release061.mkHandler Release061.Random "0.21.0")) /\
  ~ In ("GET", "/hawkular/metrics/availability/:id/data")
       (Api.registered Sample.env "Backend-Memory" Sample.handler).
Proof.
  destruct (routes_061_kept Fixtures.env061 Release061.defaultFlags
              (Release061.mkHandler Release061.Random "0.21.0")
              Sample.env "Backend-Memory" Sample.handler)
    as (_ & _ & _ & Hin & Hout).
  split; [apply Hin; discriminate | exact Hout].
Defined.

(** ** The older programs without command line arguments *)

(** Release 0.10 with its default flags: sqlite, plain HTTP, port 8080. *)
Example main010_defaults :
  fst (Release010.main Fixtures.env010 Release010.defaultFlags)
    = [Process.Open Release010.Sqlite (Some ∅);
       Process.Log "Start server, listen on http://0.0.0.0:8080";
       Process.Listen "0.0.0.0:8080" None].
Proof. reflexivity. Qed.

(** Release 0.6 with its default flags: the random storage, TLS, port
    8443. *)
Example main061_defaults :
  fst (Release061.main Fixtures.env061 Release061.defaultFlags)
    = [Process.Open Release061.Random None;
       Process.Log "Start server, listen on https://0.0.0.0:8443";
       Process.Listen "0.0.0.0:8443" (Some ("server.pem", "server.key"))].
Proof. reflexivity. Qed.

(** The version flag of release 0.10 wins over a backend that does not
    exist. *)
Example main010_version_first :
  Release010.main Fixtures.env010
      (Release010.mkFlags 8080 "cassandra" false false "a=%zz" false false true
                          "server.key" "server.pem")
    = ([Process.Stdout ("MoHawk version: 0.10.2" +:+ nl +:+ nl); Process.Return],
       None).
Proof. reflexivity. Qed.
